(** * MeshToCord: the MQTT to Discord bridge (bridge/bridge.py)

    A shallow embedding of the message pipeline of [bridge.py]: the node
    name cache, the parser of Meshtastic JSON messages, the duplicate
    filter of [on_message] and the two Discord formatters, followed by the
    properties of the specification that are settled against it.

    Conventions of the embedding.
    - A value produced by [json.loads] is a [pyval]: [None], [bool], [int],
      [float], [str], [list] or [dict].  A [float] is carried by the exact
      rational value of the double; the literals [NaN] and [Infinity], which
      are not JSON, are not represented.  A [dict] is an association list
      read from the left.
    - A Python exception is a value of [pyexn]; code that can raise returns
      a [res].
    - The two module-level globals [node_names] and [seen_messages] are the
      two fields of [state], passed explicitly.
    - Text built by f-strings is kept as a list of pieces; rendering of
      numbers in decimal is not evaluated.
    - Calls of [logger] are left out: they change neither the state nor
      what is sent. *)

From Stdlib Require Import ZArith QArith Qcanon Lia Bool Ascii String.
From stdpp Require Import base option list strings countable gmap sets.

Open Scope string_scope.
Open Scope list_scope.
Open Scope Z_scope.

(** ** Python values *)

#[warnings="-register-all"]
Inductive pyval : Type :=
  | PNone
  | PBool (b : bool)
  | PInt (n : Z)
  | PFloat (q : Qc)
  | PStr (s : string)
  | PList (l : list pyval)
  | PDict (d : list (string * pyval)).

Inductive pyexn : Type :=
  | AttributeError
  | TypeError
  | ValueError
  | OverflowError.

Inductive res (A : Type) : Type :=
  | Ok (a : A)
  | Raise (e : pyexn).
Arguments Ok {A} a.
Arguments Raise {A} e.

Definition bind {A B} (r : res A) (k : A → res B) : res B :=
  match r with
  | Ok a => k a
  | Raise e => Raise e
  end.

Notation "'do' x <- r ; k" := (bind r (fun x => k))
  (at level 10, x name, r at level 100, k at level 200).

(** [bool(v)]: the truth value Python gives to [v]. *)
Definition truthy (v : pyval) : bool :=
  match v with
  | PNone => false
  | PBool b => b
  | PInt n => negb (Z.eqb n 0)
  | PFloat q => negb (Qeq_bool q 0)
  | PStr s => negb (String.eqb s "")
  | PList l => match l with [] => false | _ => true end
  | PDict d => match d with [] => false | _ => true end
  end.

(** [a or b]. *)
Definition py_or (a b : pyval) : pyval := if truthy a then a else b.

(** [v is not None]. *)
Definition is_not_None (v : pyval) : bool :=
  match v with PNone => false | _ => true end.

(** Lookup in a dict held as an association list. *)
Fixpoint assoc (k : string) (d : list (string * pyval)) : option pyval :=
  match d with
  | [] => None
  | (k', v) :: d' => if String.eqb k k' then Some v else assoc k d'
  end.

(** [k in d] for a dict [d]. *)
Definition has_key (k : string) (d : list (string * pyval)) : bool :=
  match assoc k d with Some _ => true | None => false end.

(** [d.get(k, default)] for a dict [d]. *)
Definition dict_get_default (k : string) (default : pyval)
    (d : list (string * pyval)) : pyval :=
  match assoc k d with Some v => v | None => default end.

(** [d.get(k)] for a dict [d]. *)
Definition dict_get (k : string) (d : list (string * pyval)) : pyval :=
  dict_get_default k PNone d.

(** [v.get(k, default)] for an arbitrary value: only a dict has [get]. *)
Definition py_get_default (k : string) (default : pyval) (v : pyval) : res pyval :=
  match v with
  | PDict d => Ok (dict_get_default k default d)
  | _ => Raise AttributeError
  end.

Definition py_get (k : string) (v : pyval) : res pyval :=
  py_get_default k PNone v.

(** ** Hashable values: keys of [node_names], members of [seen_messages]

    Python compares and hashes [True], [1] and [1.0] alike, so the numeric
    values share one constructor; a list or a dict is unhashable. *)

Inductive hkey : Type :=
  | KNone
  | KNum (q : Qc)
  | KStr (s : string).

Global Instance hkey_eq_dec : EqDecision hkey.
Proof. solve_decision. Defined.

Definition hkey_to_sum (k : hkey) : unit + (Qc + string) :=
  match k with
  | KNone => inl tt
  | KNum q => inr (inl q)
  | KStr s => inr (inr s)
  end.

Definition hkey_of_sum (x : unit + (Qc + string)) : hkey :=
  match x with
  | inl _ => KNone
  | inr (inl q) => KNum q
  | inr (inr s) => KStr s
  end.

Global Instance hkey_countable : Countable hkey.
Proof.
  apply (inj_countable' hkey_to_sum hkey_of_sum).
  intros []; reflexivity.
Defined.

Definition Z2Qc (n : Z) : Qc := Q2Qc (inject_Z n).

Definition hash_key (v : pyval) : res hkey :=
  match v with
  | PNone => Ok KNone
  | PBool b => Ok (KNum (Z2Qc (if b then 1 else 0)))
  | PInt n => Ok (KNum (Z2Qc n))
  | PFloat q => Ok (KNum q)
  | PStr s => Ok (KStr s)
  | PList _ | PDict _ => Raise TypeError
  end.

(** ** The node name cache: [node_names] *)

(** The inner dict of [node_names], which only ever holds the keys
    ['short'] and ['long']. *)
Record names : Type := Names { short : option pyval; long : option pyval }.

Definition no_names : names := Names None None.

(** [names.get(k)] followed by a truth test, as in [if names.get('long')]. *)
Definition stored_truthy (o : option pyval) : option pyval :=
  match o with
  | Some v => if truthy v then Some v else None
  | None => None
  end.

(** [update_node_name(node_id, short_name, long_name)]; an argument left out
    is [None].  The membership test of the first line hashes [node_id]. *)
Definition update_node_name (node_id : pyval) (short_name long_name : pyval)
    (node_names : gmap hkey names) : res (gmap hkey names) :=
  do k <- hash_key node_id;
  let r := default no_names (node_names !! k) in
  let r := if truthy short_name then Names (Some short_name) (long r) else r in
  let r := if truthy long_name then Names (short r) (Some long_name) else r in
  Ok (<[k := r]> node_names).

(** [get_node_display_name(node_id)]. *)
Definition get_node_display_name (node_id : pyval)
    (node_names : gmap hkey names) : res pyval :=
  do k <- hash_key node_id;
  Ok match node_names !! k with
     | Some r =>
         match stored_truthy (long r) with
         | Some l => l
         | None =>
             match stored_truthy (short r) with
             | Some s => s
             | None => node_id
             end
         end
     | None => node_id
     end.

(** ** Strings: [str.split], [in], and the format [08x] *)

(** [s.split(c)] for a one-character separator. *)
Fixpoint split (c : ascii) (s : string) : list string :=
  match s with
  | EmptyString => [EmptyString]
  | String a s' =>
      if Ascii.eqb a c then EmptyString :: split c s'
      else match split c s' with
           | h :: t => String a h :: t
           | [] => [String a EmptyString]
           end
  end.

(** [sub in s] on strings. *)
Fixpoint contains (sub s : string) : bool :=
  String.prefix sub s
  || match s with
     | EmptyString => false
     | String _ s' => contains sub s'
     end.

Definition hex_alphabet : string := "0123456789abcdef".

(** The digit of value [d], for [0 <= d < 16]. *)
Definition hex_digit (d : Z) : ascii :=
  match String.get (Z.to_nat d) hex_alphabet with
  | Some c => c
  | None => "f"%char
  end.

Fixpoint hex_aux (fuel : nat) (n : Z) (acc : string) : string :=
  match fuel with
  | O => acc
  | S fuel' =>
      let acc' := String (hex_digit (n mod 16)) acc in
      if Z.eqb (n / 16) 0 then acc' else hex_aux fuel' (n / 16) acc'
  end.

(** [format(n, 'x')] for [0 <= n]: the digits without padding. *)
Definition hex (n : Z) : string :=
  hex_aux (S (Z.to_nat (Z.log2 n))) n EmptyString.

Fixpoint zeros (k : nat) : string :=
  match k with
  | O => EmptyString
  | S k' => String "0"%char (zeros k')
  end.

(** [format(n, '08x')] on an [int]: the sign first, then zeros up to a
    total width of 8, then the digits. *)
Definition format_int_08x (n : Z) : string :=
  if Z.ltb n 0 then
    let ds := hex (- n) in String "-"%char (zeros (7 - String.length ds) +:+ ds)
  else
    let ds := hex n in zeros (8 - String.length ds) +:+ ds.

(** [f"{v:08x}"]: an [int] (or a [bool], which is one) is formatted; the
    format code [x] is refused for [float] and [str] with [ValueError] and
    the other types do not take a format string at all. *)
Definition format_08x (v : pyval) : res string :=
  match v with
  | PInt n => Ok (format_int_08x n)
  | PBool b => Ok (format_int_08x (if b then 1 else 0))
  | PFloat _ | PStr _ => Raise ValueError
  | PNone | PList _ | PDict _ => Raise TypeError
  end.

(** [v == s] for a string literal [s]. *)
Definition py_eq_str (v : pyval) (s : string) : bool :=
  match v with
  | PStr s' => String.eqb s' s
  | _ => false
  end.

(** ** The parsed message

    The dict [msg] that [parse_meshtastic_message] builds.  The keys
    ['topic'], ['type'], ['from_id'] and ['from'] are set on every path that
    returns the dict; each other key is set or left out. *)

Record message : Type := Message {
  msg_topic : string;
  msg_type : pyval;
  msg_id : option pyval;
  msg_timestamp : option pyval;
  msg_from_id : pyval;
  msg_from : pyval;
  msg_channel : option string;
  msg_payload : option pyval;
  msg_text : option pyval;
  msg_rssi : option pyval;
  msg_snr : option pyval
}.

(** The block of [parse_meshtastic_message] that finds the original node:
    the values of [msg['from_id']] and [msg['from']], or [None] where the
    function returns [None] for want of a ['from'] and a ['sender']. *)
Definition origin (d : list (string * pyval)) (node_names : gmap hkey names)
    : res (option (pyval * pyval)) :=
  match assoc "from" d with
  | Some from =>
      do digits <- format_08x from;
      let from_hex := PStr (String "!"%char digits) in
      do display <- get_node_display_name from_hex node_names;
      Ok (Some (from_hex, display))
  | None =>
      match assoc "sender" d with
      | Some sender =>
          do display <- get_node_display_name sender node_names;
          Ok (Some (sender, display))
      | None => Ok None
      end
  end.

(** The block "Channel from topic": [parts[3]] when [len(parts) >= 4]. *)
Definition topic_channel (topic : string) : option string :=
  let parts := split "/"%char topic in
  if decide (4 ≤ length parts)%nat then parts !! 3%nat else None.

(** The body of the [try] of [parse_meshtastic_message].  [loaded] is the
    outcome of [json.loads(payload_bytes)].  [Ok None] is a [return None];
    [Raise] is an exception on its way to the [except] clause.  For [text],
    the outer [None] is the [return None] of a text message without text and
    the inner option tells whether [msg['text']] is set. *)
Definition parse_body (topic : string) (loaded : res pyval)
    (node_names : gmap hkey names)
    : res (option (message * gmap hkey names)) :=
  do data <- loaded;
  match data with
  | PDict d =>
      let msg_type := dict_get_default "type" (PStr "unknown") d in
      let id := assoc "id" d in
      let timestamp := assoc "timestamp" d in
      do from_id_and_from <- origin d node_names;
      match from_id_and_from with
      | None => Ok None
      | Some (from_id, from) =>
          let channel := topic_channel topic in
          let payload := assoc "payload" d in
          do text <-
            (if py_eq_str msg_type "text" then
               match dict_get "payload" d with
               | PDict p =>
                   match assoc "text" p with
                   | Some t => Ok (Some (Some t))
                   | None =>
                       match assoc "text" d with
                       | Some t => Ok (Some (Some t))
                       | None => Ok None
                       end
                   end
               | _ =>
                   match assoc "text" d with
                   | Some t => Ok (Some (Some t))
                   | None => Ok None
                   end
               end
             else Ok (Some None));
          match text with
          | None => Ok None
          | Some text =>
              let msg :=
                {| msg_topic := topic; msg_type := msg_type; msg_id := id;
                   msg_timestamp := timestamp; msg_from_id := from_id;
                   msg_from := from; msg_channel := channel;
                   msg_payload := payload; msg_text := text;
                   msg_rssi := assoc "rssi" d; msg_snr := assoc "snr" d |} in
              if py_eq_str msg_type "nodeinfo" then
                do user <- py_get_default "user" (PDict [])
                             (dict_get_default "payload" (PDict []) d);
                do short_name <- py_get "shortName" user;
                do short_name' <- py_get "shortname" user;
                do long_name <- py_get "longName" user;
                do long_name' <- py_get "longname" user;
                do node_names' <-
                  update_node_name from_id (py_or short_name short_name')
                    (py_or long_name long_name') node_names;
                Ok (Some (msg, node_names'))
              else Ok (Some (msg, node_names))
          end
      end
  | _ => Raise AttributeError
  end.

(** [parse_meshtastic_message(topic, payload_bytes)]: the dict or [None],
    and [node_names] as the call leaves it. *)
Definition parse_meshtastic_message (topic : string) (loaded : res pyval)
    (node_names : gmap hkey names) : option message * gmap hkey names :=
  match parse_body topic loaded node_names with
  | Ok (Some (msg, node_names')) => (Some msg, node_names')
  | Ok None | Raise _ => (None, node_names)
  end.

(** ** Equality of Python values: [a == b]

    Scalars compare as their hash keys do; a list compares element by
    element; two dicts are equal when they have the same keys and equal
    values under each key.  Every [pyval] that can be hashed is equal to
    itself; the float [nan], which is not, is no [pyval], and a statement
    that rests on [v == v] says that [v] is no float. *)

#[warnings="-register-all"]
Fixpoint py_eq (a b : pyval) {struct a} : bool :=
  match a, b with
  | PList l1, PList l2 =>
      (fix all2 (l1 l2 : list pyval) {struct l1} : bool :=
         match l1, l2 with
         | [], [] => true
         | x :: l1', y :: l2' => py_eq x y && all2 l1' l2'
         | _, _ => false
         end) l1 l2
  | PDict d1, PDict d2 =>
      (fix sub (before : list string) (d : list (string * pyval)) {struct d} : bool :=
         match d with
         | [] => true
         | (k, v) :: d' =>
             (if existsb (String.eqb k) before then true
              else match assoc k d2 with
                   | Some v' => py_eq v v'
                   | None => false
                   end)
             && sub (k :: before) d'
         end) [] d1
      && forallb (fun kv => has_key (fst kv) d1) d2
  | PList _, _ | PDict _, _ | _, PList _ | _, PDict _ => false
  | _, _ =>
      match hash_key a, hash_key b with
      | Ok k1, Ok k2 => bool_decide (k1 = k2)
      | _, _ => false
      end
  end.

(** ** Notifications

    An f-string is a list of pieces; [Str v] stands for [str(v)], [Fixed n v]
    for [v] printed with [n] decimals, [Raw v] for the object [v] handed over
    as it is. *)

Inductive piece : Type :=
  | Lit (s : string)
  | Raw (v : pyval)
  | Str (v : pyval)
  | Fixed (decimals : nat) (v : pyval)
  | Coord6 (v : pyval)       (* [v / 10_000_000.0] with 6 decimals *)
  | Coord (v : pyval)        (* [v / 10_000_000.0] as [str] prints it *)
  | TitleCase (s : string)   (* [s.title()] *)
  | LocalTime (v : pyval).   (* [fromtimestamp(v).strftime('%Y-%m-%d %H:%M:%S')] *)

Record field : Type := Field {
  field_name : string;
  field_value : list piece;
  field_inline : bool
}.

Record embed : Type := Embed {
  embed_title : list piece;
  embed_color : string;
  embed_fields : list field;
  embed_footer : option (list piece)
}.

(** A call of [webhook.execute()]: the delivery transport. *)
Record call : Type := Execute { call_url : string; call_embed : embed }.

(** What the process reads from its environment, and what the platform
    decides: whether [datetime.fromtimestamp] accepts an instant. *)
Record config : Type := Config {
  DISCORD_WEBHOOK_URL : string;
  DISCORD_TELEMETRY_WEBHOOK_URL : string;
  fromtimestamp_ok : Qc → bool
}.

(** The "From" field of both formatters. *)
Definition from_field (m : message) : field :=
  let display :=
    if negb (py_eq (msg_from_id m) (msg_from m))
    then [Str (msg_from m); Lit " ("; Str (msg_from_id m); Lit ")"]
    else [Raw (msg_from m)] in
  Field "From" display false.

(** [message_data.get(k) is not None] on an optional key. *)
Definition present (o : option pyval) : option pyval :=
  match o with
  | Some v => if is_not_None v then Some v else None
  | None => None
  end.

(** The "Signal" field of both formatters. *)
Definition signal_fields (m : message) : list field :=
  let rssi :=
    match present (msg_rssi m) with
    | Some v => [[Lit "RSSI: "; Str v; Lit " dBm"]]
    | None => []
    end in
  let snr :=
    match present (msg_snr m) with
    | Some v => [[Lit "SNR: "; Str v; Lit " dB"]]
    | None => []
    end in
  match rssi ++ snr with
  | [] => []
  | [a] => [Field "Signal" a false]
  | a :: b :: _ => [Field "Signal" (a ++ Lit " | " :: b) false]
  end.

(** [send_to_discord(message_data)].  [execute_ok] tells whether
    [webhook.execute()] returns or raises; the [except] clause catches what
    it raises, so the two outcomes differ in the line that is logged and in
    nothing else: the call has been made either way. *)
Definition send_to_discord (cfg : config) (execute_ok : bool) (m : message)
    : list call :=
  if negb (truthy (PStr (DISCORD_WEBHOOK_URL cfg))) then []
  else
    let channel :=
      match msg_channel m with
      | Some c => [Field "Channel" [Lit "#"; Str (PStr c)] false]
      | None => []
      end in
    let text :=
      match msg_text m with
      | Some t => [Field "Message" [Raw t] false]
      | None => []
      end in
    let e :=
      {| embed_title := [Lit "📡 Mesh Message"];
         embed_color := "03b2f8";
         embed_fields := from_field m :: channel ++ signal_fields m ++ text;
         embed_footer := Some [Lit "Topic: "; Str (PStr (msg_topic m))] |} in
    if execute_ok then [Execute (DISCORD_WEBHOOK_URL cfg) e]
    else [Execute (DISCORD_WEBHOOK_URL cfg) e].

(** Conversion of an [int] to a [float], as a true division or a format
    with decimals performs it: the integers that round to [2^1024] or
    beyond overflow. *)
Definition float_of_int_ok (n : Z) : bool :=
  Z.ltb (Z.abs n) (2 ^ 1024 - 2 ^ 970).

(** [v / 10_000_000.0]: defined on numbers only. *)
Definition true_div_float (v : pyval) : res unit :=
  match v with
  | PInt n => if float_of_int_ok n then Ok tt else Raise OverflowError
  | PBool _ | PFloat _ => Ok tt
  | PNone | PStr _ | PList _ | PDict _ => Raise TypeError
  end.

(** [f"{v:.Nf}"]: defined on numbers only. *)
Definition format_f (decimals : nat) (v : pyval) : res piece :=
  match v with
  | PInt n =>
      if float_of_int_ok n then Ok (Fixed decimals v) else Raise OverflowError
  | PBool _ | PFloat _ => Ok (Fixed decimals v)
  | PStr _ => Raise ValueError
  | PNone | PList _ | PDict _ => Raise TypeError
  end.

(** [v > 20]. *)
Definition gt_20 (v : pyval) : res bool :=
  match v with
  | PInt n => Ok (Z.ltb 20 n)
  | PBool _ => Ok false
  | PFloat q => Ok (negb (Qle_bool q 20))
  | PNone | PStr _ | PList _ | PDict _ => Raise TypeError
  end.

(** The branch [msg_type == 'position'] of [send_telemetry_to_discord]. *)
Definition position_fields (payload : pyval) : res (list field) :=
  do pos <- py_get_default "position" payload payload;
  do latitude_i <- py_get "latitude_i" pos;
  do latitudeI <- py_get "latitudeI" pos;
  let lat_i := py_or latitude_i latitudeI in
  do longitude_i <- py_get "longitude_i" pos;
  do longitudeI <- py_get "longitudeI" pos;
  let lon_i := py_or longitude_i longitudeI in
  do location <-
    (if is_not_None lat_i && is_not_None lon_i
        && (negb (py_eq lat_i (PInt 0)) || negb (py_eq lon_i (PInt 0)))
     then
       do _ <- true_div_float lat_i;
       do _ <- true_div_float lon_i;
       Ok [Field "Location" [Coord6 lat_i; Lit ", "; Coord6 lon_i] false;
           Field "Map"
             [Lit "[Open in Google Maps](https://maps.google.com/?q=";
              Coord lat_i; Lit ","; Coord lon_i; Lit ")"] false]
     else Ok []);
  do altitude <- py_get "altitude" pos;
  let altitude_field :=
    if is_not_None altitude
    then [Field "Altitude" [Str altitude; Lit " m"] true] else [] in
  do sats_in_view <- py_get "sats_in_view" pos;
  do satsInView <- py_get "satsInView" pos;
  let sats := py_or sats_in_view satsInView in
  let sats_field :=
    if is_not_None sats then [Field "Satellites" [Str sats] true] else [] in
  Ok (location ++ altitude_field ++ sats_field).

(** The branch [msg_type == 'telemetry']. *)
Definition telemetry_fields (payload : pyval) : res (list field) :=
  do metrics <- py_get_default "device_metrics" payload payload;
  do battery <- py_get "battery_level" metrics;
  do battery_field <-
    (if is_not_None battery then
       do full <- gt_20 battery;
       Ok [Field "Battery"
             [Lit (if full : bool then "🔋" else "🪫"); Lit " "; Str battery; Lit "%"]
             true]
     else Ok []);
  do voltage <- py_get "voltage" metrics;
  do voltage_field <-
    (if is_not_None voltage then
       do v <- format_f 2 voltage; Ok [Field "Voltage" [v; Lit " V"] true]
     else Ok []);
  do utilization <- py_get "channel_utilization" metrics;
  do utilization_field <-
    (if is_not_None utilization then
       do v <- format_f 1 utilization;
       Ok [Field "Channel Utilization" [v; Lit "%"] true]
     else Ok []);
  do air <- py_get "air_util_tx" metrics;
  do air_field <-
    (if is_not_None air then
       do v <- format_f 2 air; Ok [Field "Air Util TX" [v; Lit "%"] true]
     else Ok []);
  Ok (battery_field ++ voltage_field ++ utilization_field ++ air_field).

(** The branch [msg_type == 'nodeinfo'].  It writes to [node_names]; what
    it has written stays when a later statement raises, so the cache is
    returned next to the outcome. *)
Definition nodeinfo_fields (m : message) (payload : pyval)
    (node_names : gmap hkey names) : res (list field) * gmap hkey names :=
  match payload with
  | PDict p =>
      match dict_get_default "user" payload p with
      | PDict u =>
          let long_name := py_or (dict_get "longName" u) (dict_get "longname" u) in
          match (if truthy long_name
                 then update_node_name (msg_from_id m) PNone long_name node_names
                 else Ok node_names) with
          | Raise e => (Raise e, node_names)
          | Ok node_names1 =>
              let short_name :=
                py_or (dict_get "shortName" u) (dict_get "shortname" u) in
              match (if truthy short_name
                     then update_node_name (msg_from_id m) short_name PNone node_names1
                     else Ok node_names1) with
              | Raise e => (Raise e, node_names1)
              | Ok node_names2 =>
                  let hw :=
                    py_or (py_or (dict_get "hwModel" u) (dict_get "hardwareModel" u))
                          (dict_get "hardwareModel" p) in
                  let fw :=
                    py_or (dict_get "firmware_version" p)
                          (dict_get "firmwareVersion" p) in
                  (Ok ((if truthy long_name
                        then [Field "Long Name" [Raw long_name] false] else [])
                       ++ (if truthy short_name
                           then [Field "Short Name" [Raw short_name] true] else [])
                       ++ (if is_not_None hw
                           then [Field "Hardware" [Str hw] true] else [])
                       ++ (if truthy fw
                           then [Field "Firmware" [Raw fw] true] else [])),
                   node_names2)
              end
          end
      | _ => (Raise AttributeError, node_names)
      end
  | _ => (Raise AttributeError, node_names)
  end.

(** The footer: [datetime.fromtimestamp(message_data['timestamp'])]. *)
Definition timestamp_footer (cfg : config) (timestamp : option pyval)
    : res (option (list piece)) :=
  match timestamp with
  | None => Ok None
  | Some ts =>
      let at_instant (q : Qc) :=
        if fromtimestamp_ok cfg q
        then Ok (Some [Lit "Time: "; LocalTime ts]) else Raise OverflowError in
      match ts with
      | PInt n => at_instant (Z2Qc n)
      | PBool b => at_instant (Z2Qc (if b then 1 else 0))
      | PFloat q => at_instant q
      | PNone | PStr _ | PList _ | PDict _ => Raise TypeError
      end
  end.

(** The dict [titles] and its default. *)
Definition title_and_color (msg_type : string) : list piece * string :=
  if String.eqb msg_type "position" then ([Lit "📍 Position Update"], "42f554")
  else if String.eqb msg_type "telemetry" then ([Lit "📊 Telemetry Update"], "f5a742")
  else if String.eqb msg_type "nodeinfo" then ([Lit "ℹ️ Node Info Update"], "4287f5")
  else ([Lit "📡 "; TitleCase msg_type], "808080").

(** [send_telemetry_to_discord(message_data)]: the calls of the transport
    and [node_names] as the call leaves it.  An exception inside the [try]
    is caught: nothing is sent then. *)
Definition send_telemetry_to_discord (cfg : config) (execute_ok : bool)
    (m : message) (node_names : gmap hkey names)
    : list call * gmap hkey names :=
  if negb (truthy (PStr (DISCORD_TELEMETRY_WEBHOOK_URL cfg))) then ([], node_names)
  else
    match msg_type m with
    | PStr t =>
        let '(title, color) := title_and_color t in
        let payload := default (PDict []) (msg_payload m) in
        let '(body, node_names') :=
          if String.eqb t "position" then (position_fields payload, node_names)
          else if String.eqb t "telemetry" then (telemetry_fields payload, node_names)
          else if String.eqb t "nodeinfo" then nodeinfo_fields m payload node_names
          else (Ok [], node_names) in
        match body with
        | Raise _ => ([], node_names')
        | Ok fields =>
            match timestamp_footer cfg (msg_timestamp m) with
            | Raise _ => ([], node_names')
            | Ok footer =>
                let e :=
                  {| embed_title := title; embed_color := color;
                     embed_fields := from_field m :: fields ++ signal_fields m;
                     embed_footer := footer |} in
                if execute_ok
                then ([Execute (DISCORD_TELEMETRY_WEBHOOK_URL cfg) e], node_names')
                else ([Execute (DISCORD_TELEMETRY_WEBHOOK_URL cfg) e], node_names')
            end
        end
    | _ => ([], node_names)
    end.

(** ** The process state and [on_message] *)

Record state : Type := State {
  node_names : gmap hkey names;
  seen_messages : gset hkey
}.

Definition initial : state := State ∅ ∅.

Definition MAX_SEEN_MESSAGES : nat := 1000.

(** The block "Duplicate prevention" of [on_message].  [pop] is the element
    that [seen_messages.pop()] removes from the set it is given: Python
    leaves the choice to the implementation of [set].  [Ok None] is the
    [return] on a duplicate; [Raise] is the [TypeError] of an unhashable id,
    which nothing catches. *)
Definition duplicate_prevention (pop : gset hkey → hkey) (id : option pyval)
    (seen : gset hkey) : res (option (gset hkey)) :=
  match id with
  | None => Ok (Some seen)
  | Some msg_id =>
      do k <- hash_key msg_id;
      if decide (k ∈ seen) then Ok None
      else
        let seen1 := seen ∪ {[k]} in
        if decide (MAX_SEEN_MESSAGES < size seen1)%nat
        then Ok (Some (seen1 ∖ {[pop seen1]}))
        else Ok (Some seen1)
  end.

(** [msg_type in {'position', 'telemetry', 'nodeinfo'}]: the membership
    test hashes [msg_type]. *)
Definition is_telemetry_type (msg_type : pyval) : res bool :=
  do k <- hash_key msg_type;
  Ok (bool_decide (k ∈ ({[KStr "position"; KStr "telemetry"; KStr "nodeinfo"]} : gset hkey))).

(** [on_message(client, userdata, msg)] with [msg.topic = topic] and
    [json.loads(msg.payload)] giving [loaded]: the state it leaves, the calls
    of the transport it makes, and whether it returns or raises. *)
Definition on_message (cfg : config) (pop : gset hkey → hkey) (execute_ok : bool)
    (topic : string) (loaded : res pyval) (st : state)
    : state * list call * res unit :=
  if negb (contains "/json/" topic) then (st, [], Ok tt)
  else
    let '(parsed, names1) :=
      parse_meshtastic_message topic loaded (node_names st) in
    match parsed with
    | None => (State names1 (seen_messages st), [], Ok tt)
    | Some m =>
        match duplicate_prevention pop (msg_id m) (seen_messages st) with
        | Raise e => (State names1 (seen_messages st), [], Raise e)
        | Ok None => (State names1 (seen_messages st), [], Ok tt)
        | Ok (Some seen') =>
            if py_eq_str (msg_type m) "text"
            then (State names1 seen', send_to_discord cfg execute_ok m, Ok tt)
            else
              match is_telemetry_type (msg_type m) with
              | Raise e => (State names1 seen', [], Raise e)
              | Ok true =>
                  let '(calls, names2) :=
                    send_telemetry_to_discord cfg execute_ok m names1 in
                  (State names2 seen', calls, Ok tt)
              | Ok false => (State names1 seen', [], Ok tt)
              end
        end
    end.

(** One delivery of the broker, with what the environment decides during
    it: the element a [pop] would take and the outcome of the transport. *)
Record delivery : Type := Delivery {
  d_pop : gset hkey → hkey;
  d_execute_ok : bool;
  d_topic : string;
  d_loaded : res pyval
}.

Definition deliver (cfg : config) (d : delivery) (st : state)
    : state * list call * res unit :=
  on_message cfg (d_pop d) (d_execute_ok d) (d_topic d) (d_loaded d) st.

(** A [pop] takes an element of the set. *)
Definition pop_valid (pop : gset hkey → hkey) : Prop :=
  ∀ s : gset hkey, s ≠ ∅ → pop s ∈ s.

(** The broker loop: the deliveries in turn, whether or not a callback
    raised; the calls of the transport are collected in order. *)
Fixpoint run (cfg : config) (ds : list delivery) (st : state)
    : state * list call :=
  match ds with
  | [] => (st, [])
  | d :: ds' =>
      let '(st1, calls1, _) := deliver cfg d st in
      let '(st2, calls2) := run cfg ds' st1 in
      (st2, calls1 ++ calls2)
  end.

(** ** Concrete inputs used by the examples *)

Definition example_config : config :=
  Config "https://discord.example/main" "https://discord.example/telemetry"
         (fun _ => true).

(** An order on keys: [None], then the numbers by value, then the strings. *)
Definition hkey_le (a b : hkey) : bool :=
  match a, b with
  | KNone, _ => true
  | KNum _, KNone => false
  | KNum p, KNum q => Qle_bool p q
  | KNum _, KStr _ => true
  | KStr _, KStr _ => true
  | KStr _, _ => false
  end.

(** A [pop] that takes the smallest element.  CPython's [set.pop] scans the
    hash table from its first slot, and a small non-negative [int] sits in
    the slot of its own value: on a set of such ids that has not been popped
    before, this is the element CPython removes. *)
Definition pop_smallest (s : gset hkey) : hkey :=
  match elements s with
  | [] => KNone
  | k :: ks => foldr (fun a b => if hkey_le a b then a else b) k ks
  end.

(** A text message of node 1 carrying the id [id]. *)
Definition text_payload (id : Z) : pyval :=
  PDict [("from", PInt 1); ("type", PStr "text");
         ("payload", PDict [("text", PStr "hi")]); ("id", PInt id)].

Definition text_delivery (id : Z) : delivery :=
  Delivery pop_smallest true "meshtastic/json/2/text" (Ok (text_payload id)).

(** Text messages with the ids [1], ..., [n]. *)
Definition text_deliveries (n : nat) : list delivery :=
  map (fun i => text_delivery (Z.of_nat i)) (seq 1 n).

(** The state after text messages with the ids [1], ..., [1000]: the set
    [seen_messages] is full. *)
Definition full_state : state :=
  (run example_config (text_deliveries 1000) initial).1.

(** A nodeinfo message of node 1 with the id 42, naming the node. *)
Definition nodeinfo_user : list (string * pyval) :=
  [("longName", PStr "Base One"); ("shortname", PStr "B1")].

Definition nodeinfo_inner : list (string * pyval) :=
  [("user", PDict nodeinfo_user)].

Definition nodeinfo_dict : list (string * pyval) :=
  [("from", PInt 1); ("type", PStr "nodeinfo"); ("id", PInt 42);
   ("payload", PDict nodeinfo_inner)].

Definition nodeinfo_payload : pyval := PDict nodeinfo_dict.

(** A state in which the id 42 has been seen and no name is known. *)
Definition seen_42 : state := State ∅ {[KNum (Z2Qc 42)]}.

(** The message the parser returns for [nodeinfo_payload]. *)
Definition nodeinfo_message : message :=
  {| msg_topic := "meshtastic/json/2/nodeinfo"; msg_type := PStr "nodeinfo";
     msg_id := Some (PInt 42); msg_timestamp := None;
     msg_from_id := PStr "!00000001"; msg_from := PStr "!00000001";
     msg_channel := Some "nodeinfo";
     msg_payload := Some (PDict nodeinfo_inner);
     msg_text := None; msg_rssi := None; msg_snr := None |}.

(** A nodeinfo message of node 1 that carries its name at the top level of
    the payload, without a [user] key. *)
Definition toplevel_dict : list (string * pyval) :=
  [("from", PInt 1); ("type", PStr "nodeinfo");
   ("payload", PDict [("longName", PStr "Base One")])].

Definition toplevel_payload : pyval := PDict toplevel_dict.

(** The message the parser returns for [toplevel_payload], and the cache
    it leaves: an empty record for the node. *)
Definition toplevel_message : message :=
  {| msg_topic := "meshtastic/json/2/nodeinfo"; msg_type := PStr "nodeinfo";
     msg_id := None; msg_timestamp := None;
     msg_from_id := PStr "!00000001"; msg_from := PStr "!00000001";
     msg_channel := Some "nodeinfo";
     msg_payload := Some (PDict [("longName", PStr "Base One")]);
     msg_text := None; msg_rssi := None; msg_snr := None |}.

Definition toplevel_cache : gmap hkey names :=
  <[KStr "!00000001" := Names None None]> ∅.

(** A position message of node 1 at the given integer coordinates. *)
Definition position_payload (lat lon : Z) : pyval :=
  PDict [("from", PInt 1); ("type", PStr "position");
         ("payload", PDict [("latitude_i", PInt lat); ("longitude_i", PInt lon)])].

(** Whether a notification has a field of the given name. *)
Definition has_field (name : string) (e : embed) : bool :=
  existsb (fun f => String.eqb (field_name f) name) (embed_fields e).

(** ** Reading a hexadecimal numeral back

    The value of a string of the digits [0-9a-f]; any other character,
    an upper-case digit included, has none. *)

Fixpoint index_from (i : Z) (c : ascii) (s : string) : option Z :=
  match s with
  | EmptyString => None
  | String a s' => if Ascii.eqb a c then Some i else index_from (i + 1) c s'
  end.

Definition hex_digit_value (c : ascii) : option Z := index_from 0 c hex_alphabet.

Fixpoint hex_value_from (acc : Z) (s : string) : option Z :=
  match s with
  | EmptyString => Some acc
  | String c s' =>
      match hex_digit_value c with
      | Some d => hex_value_from (16 * acc + d) s'
      | None => None
      end
  end.

Definition hex_value (s : string) : option Z := hex_value_from 0 s.

(** ** The states of the node name cache *)

(** The caches that calls of [update_node_name] build from the empty one. *)
Inductive cache_state : gmap hkey names → Prop :=
  | cache_empty : cache_state ∅
  | cache_update c node_id short_name long_name c' :
      cache_state c →
      update_node_name node_id short_name long_name c = Ok c' →
      cache_state c'.

(** Every stored name passes a truth test. *)
Definition names_ok (c : gmap hkey names) : Prop :=
  ∀ k r, c !! k = Some r →
    (∀ v, short r = Some v → truthy v = true)
    ∧ (∀ v, long r = Some v → truthy v = true).

(** The record [update_node_name] leaves under the key. *)
Definition merged (short_name long_name : pyval) (old : option names) : names :=
  Names (if truthy short_name then Some short_name else old ≫= short)
        (if truthy long_name then Some long_name else old ≫= long).

(** ** Notions used by the further properties *)

(** [c'] is reached from [c] by calls of [update_node_name]. *)
Inductive updated_from (c : gmap hkey names) : gmap hkey names → Prop :=
  | updated_none : updated_from c c
  | updated_more c1 node_id short_name long_name c2 :
      updated_from c c1 →
      update_node_name node_id short_name long_name c1 = Ok c2 →
      updated_from c c2.

(** Nothing is lost between [c] and [c']: a node that has a record keeps
    one, and a name that is stored stays stored (its value may change). *)
Definition names_kept (c c' : gmap hkey names) : Prop :=
  ∀ k r, c !! k = Some r →
    ∃ r', c' !! k = Some r'
          ∧ (is_Some (short r) → is_Some (short r'))
          ∧ (is_Some (long r) → is_Some (long r')).

(** The text of a text message, as the parser looks for it: under
    [payload] when that is a dict with the key, else at the top level. *)
Definition text_of (d : list (string * pyval)) : option pyval :=
  match dict_get "payload" d with
  | PDict p =>
      match assoc "text" p with
      | Some t => Some t
      | None => assoc "text" d
      end
  | _ => assoc "text" d
  end.

(** A text message that carries a text under its payload and another at the
    top level, and the message the parser returns for it. *)
Definition two_texts_dict : list (string * pyval) :=
  [("from", PInt 1); ("type", PStr "text");
   ("payload", PDict [("text", PStr "inner")]); ("text", PStr "outer")].

Definition two_texts_message : message :=
  {| msg_topic := "meshtastic/json/2/text"; msg_type := PStr "text";
     msg_id := None; msg_timestamp := None;
     msg_from_id := PStr "!00000001"; msg_from := PStr "!00000001";
     msg_channel := Some "text";
     msg_payload := Some (PDict [("text", PStr "inner")]);
     msg_text := Some (PStr "inner"); msg_rssi := None; msg_snr := None |}.

(** The number of occurrences of a character in a string. *)
Fixpoint count_char (c : ascii) (s : string) : nat :=
  match s with
  | EmptyString => O
  | String a s' => ((if Ascii.eqb a c then 1 else 0) + count_char c s')%nat
  end.

(** A text message of node 1 without an id. *)
Definition plain_text_payload : pyval :=
  PDict [("from", PInt 1); ("type", PStr "text"); ("text", PStr "hi")].

Definition plain_text_message : message :=
  {| msg_topic := "meshtastic/json/2/text"; msg_type := PStr "text";
     msg_id := None; msg_timestamp := None;
     msg_from_id := PStr "!00000001"; msg_from := PStr "!00000001";
     msg_channel := Some "text"; msg_payload := None;
     msg_text := Some (PStr "hi"); msg_rssi := None; msg_snr := None |}.

(** The message the parser returns for [text_payload 42]. *)
Definition text_42_message : message :=
  {| msg_topic := "meshtastic/json/2/text"; msg_type := PStr "text";
     msg_id := Some (PInt 42); msg_timestamp := None;
     msg_from_id := PStr "!00000001"; msg_from := PStr "!00000001";
     msg_channel := Some "text";
     msg_payload := Some (PDict [("text", PStr "hi")]);
     msg_text := Some (PStr "hi"); msg_rssi := None; msg_snr := None |}.

(** A text message whose id is a list, and what the parser returns. *)
Definition list_id_payload : pyval :=
  PDict [("from", PInt 1); ("type", PStr "text"); ("text", PStr "hi");
         ("id", PList [PInt 1])].

Definition list_id_message : message :=
  {| msg_topic := "meshtastic/json/2/text"; msg_type := PStr "text";
     msg_id := Some (PList [PInt 1]); msg_timestamp := None;
     msg_from_id := PStr "!00000001"; msg_from := PStr "!00000001";
     msg_channel := Some "text"; msg_payload := None;
     msg_text := Some (PStr "hi"); msg_rssi := None; msg_snr := None |}.

(** A position message without a payload, as the parser returns it. *)
Definition bare_position_message : message :=
  {| msg_topic := "meshtastic/json/2/position"; msg_type := PStr "position";
     msg_id := None; msg_timestamp := None;
     msg_from_id := PStr "!00000001"; msg_from := PStr "!00000001";
     msg_channel := Some "position"; msg_payload := None;
     msg_text := None; msg_rssi := None; msg_snr := None |}.

(** A telemetry message whose payload is a string. *)
Definition string_payload_message : message :=
  {| msg_topic := "meshtastic/json/2/telemetry"; msg_type := PStr "telemetry";
     msg_id := None; msg_timestamp := None;
     msg_from_id := PStr "!00000001"; msg_from := PStr "!00000001";
     msg_channel := Some "telemetry"; msg_payload := Some (PStr "n/a");
     msg_text := None; msg_rssi := None; msg_snr := None |}.

(** A message of a type the bridge does not know, with the id 7. *)
Definition neighborinfo_payload : pyval :=
  PDict [("from", PInt 1); ("type", PStr "neighborinfo"); ("id", PInt 7)].

Definition neighborinfo_message : message :=
  {| msg_topic := "meshtastic/json/2/neighborinfo";
     msg_type := PStr "neighborinfo";
     msg_id := Some (PInt 7); msg_timestamp := None;
     msg_from_id := PStr "!00000001"; msg_from := PStr "!00000001";
     msg_channel := Some "neighborinfo"; msg_payload := None;
     msg_text := None; msg_rssi := None; msg_snr := None |}.

(** A telemetry message whose voltage is a string. *)
Definition string_voltage_message : message :=
  {| msg_topic := "meshtastic/json/2/telemetry"; msg_type := PStr "telemetry";
     msg_id := None; msg_timestamp := None;
     msg_from_id := PStr "!00000001"; msg_from := PStr "!00000001";
     msg_channel := Some "telemetry";
     msg_payload :=
       Some (PDict [("battery_level", PInt 87); ("voltage", PStr "4.1")]);
     msg_text := None; msg_rssi := None; msg_snr := None |}.

(** [nodeinfo_message] with a timestamp that is not a number. *)
Definition bad_timestamp_message : message :=
  {| msg_topic := "meshtastic/json/2/nodeinfo"; msg_type := PStr "nodeinfo";
     msg_id := Some (PInt 42); msg_timestamp := Some (PStr "yesterday");
     msg_from_id := PStr "!00000001"; msg_from := PStr "!00000001";
     msg_channel := Some "nodeinfo";
     msg_payload := Some (PDict nodeinfo_inner);
     msg_text := None; msg_rssi := None; msg_snr := None |}.

(** Runs [H], the tail of the parser after the text has been found, to the
    message it returns. *)
Ltac parse_tail H :=
  match type of H with
  | context [if ?b then _ else _] => destruct b
  end;
  repeat match type of H with
         | context [bind ?r _] => destruct r; cbn [bind] in H; try discriminate H
         end;
  cbv beta iota in H.

Lemma update_node_name_eq node_id k short_name long_name (c : gmap hkey names) :
  hash_key node_id = Ok k →
  update_node_name node_id short_name long_name c
  = Ok (<[k := merged short_name long_name (c !! k)]> c).
Proof.
  intros Hk. unfold update_node_name, merged. rewrite Hk. simpl.
  destruct (c !! k) as [[s l]|]; simpl;
    destruct (truthy short_name), (truthy long_name); reflexivity.
Qed.

Lemma update_node_name_hashable node_id short_name long_name
    (c c' : gmap hkey names) :
  update_node_name node_id short_name long_name c = Ok c' →
  ∃ k, hash_key node_id = Ok k.
Proof.
  unfold update_node_name. destruct (hash_key node_id) as [k|e]; simpl.
  - eauto.
  - discriminate.
Qed.

Lemma names_ok_empty : names_ok ∅.
Proof. intros k r H. rewrite lookup_empty in H. discriminate. Qed.

Lemma names_ok_update node_id short_name long_name (c c' : gmap hkey names) :
  names_ok c →
  update_node_name node_id short_name long_name c = Ok c' →
  names_ok c'.
Proof.
  intros Hc Hu.
  destruct (update_node_name_hashable _ _ _ _ _ Hu) as [k Hk].
  rewrite (update_node_name_eq _ _ _ _ _ Hk) in Hu. injection Hu as <-.
  intros k' r Hr. destruct (decide (k = k')) as [<-|Hne].
  - rewrite lookup_insert_eq in Hr. injection Hr as <-. unfold merged; simpl.
    split; intros v Hv.
    + destruct (truthy short_name) eqn:Ht.
      * injection Hv as <-. exact Ht.
      * destruct (c !! k) as [r|] eqn:Hl; simpl in Hv; [|discriminate].
        exact (proj1 (Hc k r Hl) v Hv).
    + destruct (truthy long_name) eqn:Ht.
      * injection Hv as <-. exact Ht.
      * destruct (c !! k) as [r|] eqn:Hl; simpl in Hv; [|discriminate].
        exact (proj2 (Hc k r Hl) v Hv).
  - rewrite lookup_insert_ne in Hr by done. exact (Hc k' r Hr).
Qed.

Lemma cache_state_names_ok (c : gmap hkey names) : cache_state c → names_ok c.
Proof.
  induction 1 as [|c node_id s l c' _ IH Hu].
  - exact names_ok_empty.
  - exact (names_ok_update _ _ _ _ _ IH Hu).
Qed.

(** ** The node name cache: [get_node_display_name] and [update_node_name] *)

(** C8. On every cache that updates have built and for every hashable node
    id, [get_node_display_name] returns the stored long name if there is
    one, else the stored short name if there is one, else the id itself; in
    particular it returns the id when nothing is stored for it.  The result
    is a function of the record stored under the id alone, and the function
    returns no cache: it writes nothing. *)
Theorem get_node_display_name_priority (c : gmap hkey names) (node_id : pyval)
    (k : hkey) :
  cache_state c →
  hash_key node_id = Ok k →
  get_node_display_name node_id c
  = Ok match c !! k with
       | Some r =>
           match long r with
           | Some l => l
           | None => match short r with Some s => s | None => node_id end
           end
       | None => node_id
       end
  ∧ (c !! k = None → get_node_display_name node_id c = Ok node_id)
  ∧ (∀ c2 : gmap hkey names, c2 !! k = c !! k →
       get_node_display_name node_id c2 = get_node_display_name node_id c).
Proof.
  intros Hc Hk. apply cache_state_names_ok in Hc.
  assert (Hmain : get_node_display_name node_id c
    = Ok match c !! k with
         | Some r =>
             match long r with
             | Some l => l
             | None => match short r with Some s => s | None => node_id end
             end
         | None => node_id
         end).
  { unfold get_node_display_name. rewrite Hk. simpl.
    destruct (c !! k) as [[s l]|] eqn:Hl; [|reflexivity].
    destruct (Hc k _ Hl) as [Hs Hlg]. simpl in *.
    destruct l as [l|]; simpl.
    - rewrite (Hlg l eq_refl). reflexivity.
    - destruct s as [s|]; simpl; [|reflexivity].
      rewrite (Hs s eq_refl). reflexivity. }
  split; [exact Hmain|]. split.
  - intros Hnone. rewrite Hmain, Hnone. reflexivity.
  - intros c2 H2. unfold get_node_display_name. rewrite Hk. simpl.
    rewrite H2. reflexivity.
Qed.

Lemma get_node_display_name_priority_witness :
  let c : gmap hkey names :=
    <[KStr "!00000001" := Names (Some (PStr "B1")) (Some (PStr "Base One"))]> ∅ in
  get_node_display_name (PStr "!00000001") c = Ok (PStr "Base One")
  ∧ get_node_display_name (PStr "!00000002") c = Ok (PStr "!00000002").
Proof.
  intros c.
  assert (Hc : cache_state c).
  { apply (cache_update ∅ (PStr "!00000001") (PStr "B1") (PStr "Base One"));
      [exact cache_empty|].
    rewrite (update_node_name_eq _ (KStr "!00000001")) by reflexivity.
    reflexivity. }
  split.
  - destruct (get_node_display_name_priority c (PStr "!00000001")
                (KStr "!00000001") Hc eq_refl) as [H _].
    rewrite H. unfold c. rewrite lookup_insert_eq. reflexivity.
  - destruct (get_node_display_name_priority c (PStr "!00000002")
                (KStr "!00000002") Hc eq_refl) as (_ & H & _).
    apply H. unfold c. rewrite lookup_insert_ne by discriminate.
    apply lookup_empty.
Defined.

(** C9. [update_node_name] on a hashable node id always succeeds and
    leaves a record under the id, created if there was none; in that record
    an argument that is empty or absent (one that fails the truth test)
    leaves the name stored before as it was, and an argument that is not
    replaces it; the records of the other ids are untouched. *)
Theorem update_node_name_merges (c : gmap hkey names) (node_id : pyval)
    (k : hkey) (short_name long_name : pyval) :
  hash_key node_id = Ok k →
  ∃ c' r',
    update_node_name node_id short_name long_name c = Ok c'
    ∧ c' !! k = Some r'
    ∧ short r' = (if truthy short_name then Some short_name else c !! k ≫= short)
    ∧ long r' = (if truthy long_name then Some long_name else c !! k ≫= long)
    ∧ (∀ k', k' ≠ k → c' !! k' = c !! k').
Proof.
  intros Hk. eexists _, _. split; [exact (update_node_name_eq _ _ _ _ _ Hk)|].
  split; [apply lookup_insert_eq|].
  split; [reflexivity|]. split; [reflexivity|].
  intros k' Hne. apply lookup_insert_ne. congruence.
Qed.

Lemma update_node_name_merges_witness :
  ∃ c' r',
    update_node_name (PStr "!00000001") (PStr "") PNone
      (<[KStr "!00000001" := Names (Some (PStr "B1")) (Some (PStr "Base One"))]> ∅)
    = Ok c'
    ∧ c' !! KStr "!00000001" = Some r'
    ∧ short r' = Some (PStr "B1")
    ∧ long r' = Some (PStr "Base One").
Proof.
  destruct (update_node_name_merges
              (<[KStr "!00000001" := Names (Some (PStr "B1")) (Some (PStr "Base One"))]> ∅)
              (PStr "!00000001") (KStr "!00000001") (PStr "") PNone eq_refl)
    as (c' & r' & Hu & Hl & Hs & Hlg & _).
  exists c', r'. rewrite lookup_insert_eq in Hs, Hlg. simpl in Hs, Hlg. auto.
Defined.

(** ** The format [08x] *)

Lemma hex_digit_value_hex_digit (d : Z) :
  0 ≤ d < 16 → hex_digit_value (hex_digit d) = Some d.
Proof.
  intros Hd.
  assert (H : d = 0 ∨ d = 1 ∨ d = 2 ∨ d = 3 ∨ d = 4 ∨ d = 5 ∨ d = 6 ∨ d = 7
              ∨ d = 8 ∨ d = 9 ∨ d = 10 ∨ d = 11 ∨ d = 12 ∨ d = 13 ∨ d = 14
              ∨ d = 15) by lia.
  repeat (destruct H as [->|H]; [reflexivity|]). subst d. reflexivity.
Qed.

Lemma string_app_cons (c : ascii) (s t : string) :
  String c s +:+ t = String c (s +:+ t).
Proof. reflexivity. Qed.

Lemma string_app_length (s t : string) :
  String.length (s +:+ t) = (String.length s + String.length t)%nat.
Proof.
  induction s as [|c s IH]; [reflexivity|].
  rewrite string_app_cons. simpl. rewrite IH. reflexivity.
Qed.

Lemma string_app_assoc (s t u : string) : (s +:+ t) +:+ u = s +:+ (t +:+ u).
Proof.
  induction s as [|c s IH]; [reflexivity|].
  rewrite !string_app_cons. f_equal. exact IH.
Qed.

Lemma string_app_empty (s : string) : s +:+ EmptyString = s.
Proof.
  induction s as [|c s IH]; [reflexivity|].
  rewrite string_app_cons. f_equal. exact IH.
Qed.

Lemma hex_value_from_app (s t : string) (a : Z) :
  hex_value_from a (s +:+ t) = hex_value_from a s ≫= (fun a' => hex_value_from a' t).
Proof.
  revert a. induction s as [|c s IH]; intros a; [reflexivity|].
  rewrite string_app_cons. simpl.
  destruct (hex_digit_value c); [apply IH|reflexivity].
Qed.

(** The digits that [hex_aux] puts in front of [acc]: they read back as
    [n], and there are no more of them than [n] needs. *)
Lemma hex_aux_spec (fuel : nat) : ∀ (n : Z) (acc : string),
  0 ≤ n < 16 ^ Z.of_nat fuel → fuel ≠ O →
  ∃ s, hex_aux fuel n acc = s +:+ acc
       ∧ (∀ a, hex_value_from a s = Some (a * 16 ^ Z.of_nat (String.length s) + n))
       ∧ (String.length s = 1%nat ∨ 16 ^ (Z.of_nat (String.length s) - 1) ≤ n).
Proof.
  induction fuel as [|fuel IH]; intros n acc Hn Hfuel; [congruence|].
  simpl hex_aux. destruct (Z.eqb_spec (n / 16) 0) as [Hq|Hq].
  - exists (String (hex_digit (n mod 16)) EmptyString).
    assert (Hlt : 0 ≤ n < 16).
    { apply Z.div_small_iff in Hq; lia. }
    assert (Hsmall : n mod 16 = n) by (apply Z.mod_small; lia).
    split; [reflexivity|]. split; [|left; reflexivity].
    intros a. simpl. rewrite hex_digit_value_hex_digit by lia.
    f_equal. lia.
  - assert (H16 : 16 ≤ n).
    { destruct (Z_lt_le_dec n 16) as [Hlt|Hge]; [|exact Hge].
      exfalso. apply Hq. apply Z.div_small. lia. }
    assert (Hfuel' : fuel ≠ O).
    { intros ->. simpl in Hn. lia. }
    assert (Hpow : 16 ^ Z.of_nat (S fuel) = 16 * 16 ^ Z.of_nat fuel).
    { rewrite Nat2Z.inj_succ. apply Z.pow_succ_r. lia. }
    assert (Hdiv : 0 ≤ n / 16 < 16 ^ Z.of_nat fuel).
    { split; [apply Z.div_pos; lia|].
      apply Z.div_lt_upper_bound; lia. }
    destruct (IH (n / 16) (String (hex_digit (n mod 16)) acc) Hdiv Hfuel')
      as (s' & Heq & Hval & Hlen).
    exists (s' +:+ String (hex_digit (n mod 16)) EmptyString).
    assert (Hmod : 0 ≤ n mod 16 < 16) by (apply Z.mod_pos_bound; lia).
    assert (Hn16 : n = 16 * (n / 16) + n mod 16) by (apply Z.div_mod; lia).
    rewrite string_app_length. simpl String.length.
    replace (Z.of_nat (String.length s' + 1)) with (Z.succ (Z.of_nat (String.length s')))
      by lia.
    split; [rewrite Heq, string_app_assoc; reflexivity|]. split.
    + intros a. rewrite hex_value_from_app, Hval. simpl.
      rewrite hex_digit_value_hex_digit by exact Hmod.
      f_equal. rewrite Z.pow_succ_r by lia. lia.
    + right. replace (Z.succ (Z.of_nat (String.length s')) - 1)
        with (Z.of_nat (String.length s')) by lia.
      destruct Hlen as [Hlen|Hlen].
      * rewrite Hlen. change (16 ^ Z.of_nat 1) with 16. exact H16.
      * assert (Hpos : 0 < Z.of_nat (String.length s')).
        { destruct (String.length s') eqn:E; [|lia].
          simpl in Hlen. change (16 ^ (0 - 1)) with 0 in Hlen.
          specialize (Hval 0). destruct s'; [|discriminate].
          simpl in Hval. injection Hval as Hval. lia. }
        replace (Z.of_nat (String.length s'))
          with (Z.succ (Z.of_nat (String.length s') - 1)) by lia.
        rewrite Z.pow_succ_r by lia. lia.
Qed.

Lemma hex_spec (n : Z) :
  0 ≤ n →
  hex_value (hex n) = Some n
  ∧ (String.length (hex n) = 1%nat ∨ 16 ^ (Z.of_nat (String.length (hex n)) - 1) ≤ n).
Proof.
  intros Hn. unfold hex, hex_value.
  assert (Hfuel : 0 ≤ n < 16 ^ Z.of_nat (S (Z.to_nat (Z.log2 n)))).
  { split; [exact Hn|].
    rewrite Nat2Z.inj_succ, Z2Nat.id by apply Z.log2_nonneg.
    destruct (Z.eq_dec n 0) as [->|Hne]; [reflexivity|].
    assert (Hlog : n < 2 ^ Z.succ (Z.log2 n)) by (apply Z.log2_spec; lia).
    eapply Z.lt_le_trans; [exact Hlog|].
    apply Z.pow_le_mono_l. split; [lia|lia]. }
  destruct (hex_aux_spec _ n EmptyString Hfuel ltac:(discriminate))
    as (s & Heq & Hval & Hlen).
  rewrite Heq, string_app_empty. split; [|exact Hlen].
  rewrite Hval. f_equal; lia.
Qed.

Lemma zeros_length (k : nat) : String.length (zeros k) = k.
Proof. induction k as [|k IH]; simpl; [reflexivity|]. rewrite IH. reflexivity. Qed.

Lemma hex_value_from_zeros (k : nat) (s : string) :
  hex_value_from 0 (zeros k +:+ s) = hex_value_from 0 s.
Proof.
  induction k as [|k IH]; [reflexivity|].
  simpl zeros. rewrite string_app_cons. simpl. exact IH.
Qed.

(** An [int] below [2^32] is printed as eight lower-case digits that read
    back as the number. *)
Lemma format_int_08x_spec (n : Z) :
  0 ≤ n < 2 ^ 32 →
  String.length (format_int_08x n) = 8%nat
  ∧ hex_value (format_int_08x n) = Some n.
Proof.
  intros Hn. unfold format_int_08x.
  destruct (Z.ltb_spec n 0) as [Hneg|_]; [lia|].
  destruct (hex_spec n ltac:(lia)) as [Hval Hlen].
  assert (Hle : (String.length (hex n) ≤ 8)%nat).
  { destruct Hlen as [Hlen|Hlen]; [lia|].
    destruct (le_lt_dec (String.length (hex n)) 8) as [Hok|Hbig]; [exact Hok|].
    exfalso.
    assert (Hpow : 16 ^ 8 ≤ 16 ^ (Z.of_nat (String.length (hex n)) - 1))
      by (apply Z.pow_le_mono_r; lia).
    change (16 ^ 8) with (2 ^ 32) in Hpow. lia. }
  split.
  - rewrite string_app_length, zeros_length. lia.
  - unfold hex_value. rewrite hex_value_from_zeros. exact Hval.
Qed.

(** ** The parser *)

(** What a successful parse tells about its input. *)
Lemma parse_inv topic loaded (c c' : gmap hkey names) m :
  parse_meshtastic_message topic loaded c = (Some m, c') →
  ∃ d from_id from text,
    loaded = Ok (PDict d)
    ∧ origin d c = Ok (Some (from_id, from))
    ∧ m = {| msg_topic := topic;
             msg_type := dict_get_default "type" (PStr "unknown") d;
             msg_id := assoc "id" d;
             msg_timestamp := assoc "timestamp" d;
             msg_from_id := from_id; msg_from := from;
             msg_channel := topic_channel topic;
             msg_payload := assoc "payload" d; msg_text := text;
             msg_rssi := assoc "rssi" d; msg_snr := assoc "snr" d |}
    ∧ (if py_eq_str (dict_get_default "type" (PStr "unknown") d) "nodeinfo"
       then ∃ u,
         py_get_default "user" (PDict []) (dict_get_default "payload" (PDict []) d)
         = Ok (PDict u)
         ∧ update_node_name from_id
             (py_or (dict_get "shortName" u) (dict_get "shortname" u))
             (py_or (dict_get "longName" u) (dict_get "longname" u)) c = Ok c'
       else c' = c).
Proof.
  unfold parse_meshtastic_message, parse_body.
  destruct loaded as [data|e]; simpl; [|discriminate].
  destruct data as [| | | | | |d]; try discriminate.
  destruct (origin d c) as [[[from_id from]|]|e] eqn:Ho; simpl; try discriminate.
  set (msg_type := dict_get_default "type" (PStr "unknown") d).
  intros H. exists d, from_id, from.
  assert (Hfin : ∀ text,
    match
      (if py_eq_str msg_type "nodeinfo"
       then
         do user <- py_get_default "user" (PDict [])
                      (dict_get_default "payload" (PDict []) d);
         do short_name <- py_get "shortName" user;
         do short_name' <- py_get "shortname" user;
         do long_name <- py_get "longName" user;
         do long_name' <- py_get "longname" user;
         do node_names' <-
           update_node_name from_id (py_or short_name short_name')
             (py_or long_name long_name') c;
         Ok (Some
               ({| msg_topic := topic; msg_type := msg_type;
                   msg_id := assoc "id" d; msg_timestamp := assoc "timestamp" d;
                   msg_from_id := from_id; msg_from := from;
                   msg_channel := topic_channel topic;
                   msg_payload := assoc "payload" d; msg_text := text;
                   msg_rssi := assoc "rssi" d; msg_snr := assoc "snr" d |},
                node_names'))
       else
         Ok (Some
               ({| msg_topic := topic; msg_type := msg_type;
                   msg_id := assoc "id" d; msg_timestamp := assoc "timestamp" d;
                   msg_from_id := from_id; msg_from := from;
                   msg_channel := topic_channel topic;
                   msg_payload := assoc "payload" d; msg_text := text;
                   msg_rssi := assoc "rssi" d; msg_snr := assoc "snr" d |}, c)))
    with
    | Ok (Some (msg, node_names')) => (Some msg, node_names')
    | _ => (None, c)
    end = (Some m, c') →
    m = {| msg_topic := topic; msg_type := msg_type;
           msg_id := assoc "id" d; msg_timestamp := assoc "timestamp" d;
           msg_from_id := from_id; msg_from := from;
           msg_channel := topic_channel topic;
           msg_payload := assoc "payload" d; msg_text := text;
           msg_rssi := assoc "rssi" d; msg_snr := assoc "snr" d |}
    ∧ (if py_eq_str msg_type "nodeinfo"
       then ∃ u,
         py_get_default "user" (PDict []) (dict_get_default "payload" (PDict []) d)
         = Ok (PDict u)
         ∧ update_node_name from_id
             (py_or (dict_get "shortName" u) (dict_get "shortname" u))
             (py_or (dict_get "longName" u) (dict_get "longname" u)) c = Ok c'
       else c' = c)).
  { intros text. destruct (py_eq_str msg_type "nodeinfo").
    - destruct (py_get_default "user" (PDict [])
                  (dict_get_default "payload" (PDict []) d)) as [user|e];
        simpl; [|discriminate].
      destruct user as [| | | | | |u]; simpl; try discriminate.
      destruct (update_node_name from_id _ _ c) as [c1|e] eqn:Hu;
        simpl; [|discriminate].
      intros [= <- <-]. split; [reflexivity|]. exists u. split; [reflexivity|].
      exact Hu.
    - intros [= <- <-]. split; reflexivity. }
  destruct (py_eq_str msg_type "text").
  - destruct (dict_get "payload" d) as [| | | | | |p].
    1-6: destruct (assoc "text" d) as [t|]; simpl in H; [|discriminate];
         exists (Some t); (split; [reflexivity|]); (split; [exact Ho|]);
         apply Hfin; exact H.
    destruct (assoc "text" p) as [t|].
    + simpl in H. exists (Some t). split; [reflexivity|]. split; [exact Ho|].
      apply Hfin; exact H.
    + destruct (assoc "text" d) as [t|]; simpl in H; [|discriminate].
      exists (Some t). split; [reflexivity|]. split; [exact Ho|].
      apply Hfin; exact H.
  - simpl in H. exists None. split; [reflexivity|]. split; [exact Ho|].
    apply Hfin; exact H.
Qed.

Lemma parse_channel topic loaded (c c' : gmap hkey names) m :
  parse_meshtastic_message topic loaded c = (Some m, c') →
  msg_channel m = topic_channel topic.
Proof.
  intros H. apply parse_inv in H as (d & from_id & from & text & _ & _ & -> & _).
  reflexivity.
Qed.

(** A message that has an origin and is neither a text nor a nodeinfo is
    accepted, and the cache is left as it was. *)
Lemma parse_accepts topic d (c : gmap hkey names) from_id from :
  origin d c = Ok (Some (from_id, from)) →
  py_eq_str (dict_get_default "type" (PStr "unknown") d) "text" = false →
  py_eq_str (dict_get_default "type" (PStr "unknown") d) "nodeinfo" = false →
  ∃ m, parse_meshtastic_message topic (Ok (PDict d)) c = (Some m, c)
       ∧ msg_from_id m = from_id.
Proof.
  intros Ho Ht Hn. unfold parse_meshtastic_message, parse_body. simpl.
  rewrite Ho. simpl. rewrite Ht. simpl. rewrite Hn.
  eexists. split; reflexivity.
Qed.

Lemma origin_from_int d n (c : gmap hkey names) :
  assoc "from" d = Some (PInt n) →
  ∃ from,
    origin d c = Ok (Some (PStr (String "!"%char (format_int_08x n)), from)).
Proof.
  intros Hf. unfold origin. rewrite Hf. simpl. eexists. reflexivity.
Qed.

Lemma py_eq_str_true (v : pyval) (s : string) :
  py_eq_str v s = true → v = PStr s.
Proof.
  destruct v; simpl; try discriminate.
  intros H. apply String.eqb_eq in H. rewrite H. reflexivity.
Qed.

(** A text message that has an origin and a text, under [payload] or at the
    top level, is accepted with that text, and the cache is left as it
    was. *)
Lemma parse_accepts_text topic d (c : gmap hkey names) from_id from t :
  origin d c = Ok (Some (from_id, from)) →
  py_eq_str (dict_get_default "type" (PStr "unknown") d) "text" = true →
  text_of d = Some t →
  ∃ m, parse_meshtastic_message topic (Ok (PDict d)) c = (Some m, c)
       ∧ msg_from_id m = from_id
       ∧ msg_text m = Some t.
Proof.
  intros Ho Ht Htx. apply py_eq_str_true in Ht.
  unfold parse_meshtastic_message, parse_body. cbn [bind].
  rewrite Ho. cbn [bind]. rewrite !Ht.
  change (py_eq_str (PStr "text") "text") with true.
  change (py_eq_str (PStr "text") "nodeinfo") with false.
  cbv iota. unfold text_of in Htx.
  destruct (dict_get "payload" d) as [| | | | | |p].
  1-6: rewrite Htx; cbn [bind]; eexists; repeat split; reflexivity.
  destruct (assoc "text" p) as [t'|].
  - injection Htx as ->. cbn [bind]. eexists. repeat split; reflexivity.
  - rewrite Htx. cbn [bind]. eexists. repeat split; reflexivity.
Qed.

(** A nodeinfo message whose origin is a string and whose user block is a
    dict is accepted. *)
Lemma parse_accepts_nodeinfo topic d u (c : gmap hkey names) s from :
  origin d c = Ok (Some (PStr s, from)) →
  py_eq_str (dict_get_default "type" (PStr "unknown") d) "nodeinfo" = true →
  py_get_default "user" (PDict []) (dict_get_default "payload" (PDict []) d)
  = Ok (PDict u) →
  ∃ m c', parse_meshtastic_message topic (Ok (PDict d)) c = (Some m, c')
          ∧ msg_from_id m = PStr s.
Proof.
  intros Ho Ht Hu. apply py_eq_str_true in Ht.
  unfold parse_meshtastic_message, parse_body. cbn [bind].
  rewrite Ho. cbn [bind]. rewrite !Ht.
  change (py_eq_str (PStr "nodeinfo") "text") with false.
  change (py_eq_str (PStr "nodeinfo") "nodeinfo") with true.
  cbn [bind]. rewrite Hu. cbn [bind py_get py_get_default].
  rewrite (update_node_name_eq (PStr s) (KStr s) _ _ c eq_refl).
  eexists. eexists. split; reflexivity.
Qed.

(** C7. When the ['from'] of a payload is an [int] [n] with
    [0 <= n < 2^32], the parser forms [from_id] as ['!'] followed by eight
    characters that are lower-case hexadecimal digits and read back as [n]:
    the block that finds the origin always yields it, every message the
    parser returns for the payload carries it, and the parser does return
    one on every topic: when the type is neither text nor nodeinfo, when it
    is text and the payload has a text (under [payload] or at the top
    level), and when it is nodeinfo and the user block is a dict.  (In the
    two cases left, a text message without text and a nodeinfo whose user
    block is no dict, the parser returns [None].) *)
Theorem from_id_is_padded_hex (d : list (string * pyval)) (n : Z)
    (c : gmap hkey names) :
  assoc "from" d = Some (PInt n) →
  0 ≤ n < 2 ^ 32 →
  ∃ digits,
    String.length digits = 8%nat
    ∧ hex_value digits = Some n
    ∧ (∃ from, origin d c = Ok (Some (PStr (String "!"%char digits), from)))
    ∧ (∀ topic m c',
         parse_meshtastic_message topic (Ok (PDict d)) c = (Some m, c') →
         msg_from_id m = PStr (String "!"%char digits))
    ∧ (py_eq_str (dict_get_default "type" (PStr "unknown") d) "text" = false →
       py_eq_str (dict_get_default "type" (PStr "unknown") d) "nodeinfo" = false →
       ∀ topic, ∃ m,
         parse_meshtastic_message topic (Ok (PDict d)) c = (Some m, c)
         ∧ msg_from_id m = PStr (String "!"%char digits))
    ∧ (py_eq_str (dict_get_default "type" (PStr "unknown") d) "text" = true →
       ∀ t, text_of d = Some t →
       ∀ topic, ∃ m,
         parse_meshtastic_message topic (Ok (PDict d)) c = (Some m, c)
         ∧ msg_from_id m = PStr (String "!"%char digits)
         ∧ msg_text m = Some t)
    ∧ (py_eq_str (dict_get_default "type" (PStr "unknown") d) "nodeinfo" = true →
       ∀ u,
         py_get_default "user" (PDict []) (dict_get_default "payload" (PDict []) d)
         = Ok (PDict u) →
       ∀ topic, ∃ m c',
         parse_meshtastic_message topic (Ok (PDict d)) c = (Some m, c')
         ∧ msg_from_id m = PStr (String "!"%char digits)).
Proof.
  intros Hf Hn. exists (format_int_08x n).
  destruct (format_int_08x_spec n Hn) as [Hlen Hval].
  destruct (origin_from_int d n c Hf) as [from Ho].
  split; [exact Hlen|]. split; [exact Hval|]. split; [eauto|].
  split; [|split; [|split]].
  - intros topic m c' Hp.
    apply parse_inv in Hp as (d' & from_id & from' & text & [= <-] & Ho' & -> & _).
    rewrite Ho in Ho'. injection Ho' as <- _. reflexivity.
  - intros Ht Hni topic. exact (parse_accepts topic d c _ _ Ho Ht Hni).
  - intros Ht t Htx topic. exact (parse_accepts_text topic d c _ _ t Ho Ht Htx).
  - intros Hni u Hu topic. exact (parse_accepts_nodeinfo topic d u c _ _ Ho Hni Hu).
Qed.

Lemma from_id_is_padded_hex_witness :
  ∃ digits,
    String.length digits = 8%nat
    ∧ hex_value digits = Some 2660063048
    ∧ ∃ m, parse_meshtastic_message "meshtastic/json/2/text"
             (Ok (PDict [("from", PInt 2660063048); ("type", PStr "text");
                         ("payload", PDict [("text", PStr "hi")])])) ∅
           = (Some m, ∅)
           ∧ msg_from_id m = PStr (String "!"%char digits)
           ∧ msg_text m = Some (PStr "hi").
Proof.
  destruct (from_id_is_padded_hex
              [("from", PInt 2660063048); ("type", PStr "text");
               ("payload", PDict [("text", PStr "hi")])]
              2660063048 ∅ eq_refl ltac:(lia))
    as (digits & Hlen & Hval & _ & _ & _ & Htext & _).
  exists digits. split; [exact Hlen|]. split; [exact Hval|].
  exact (Htext eq_refl (PStr "hi") eq_refl "meshtastic/json/2/text").
Defined.

(** C1. On the topic [meshtastic/json/2/text] the list [parts] is
    [meshtastic], [json], [2], [text], and [parts[3]] is its last element:
    the message that the parser returns for a text payload carries the
    channel ["text"], not ["2"]. *)
Theorem channel_of_json_2_text :
  split "/"%char "meshtastic/json/2/text" = ["meshtastic"; "json"; "2"; "text"]
  ∧ ∃ m,
      parse_meshtastic_message "meshtastic/json/2/text" (Ok (text_payload 7)) ∅
      = (Some m, ∅)
      ∧ msg_channel m = Some "text"
      ∧ msg_channel m ≠ Some "2".
Proof.
  split; [reflexivity|].
  eexists. split; [reflexivity|]. split; [reflexivity|]. discriminate.
Qed.

(** On that topic every message the parser returns has the channel
    ["text"], whatever the payload. *)
Lemma json_2_text_channel_always loaded (c c' : gmap hkey names) m :
  parse_meshtastic_message "meshtastic/json/2/text" loaded c = (Some m, c') →
  msg_channel m = Some "text".
Proof. intros H. rewrite (parse_channel _ _ _ _ _ H). reflexivity. Qed.

(** ** The position branch of the telemetry formatter *)

(** With [latitude_i] equal to 0 and no [latitudeI], [lat_i] is [None]
    after the [or], whatever the longitude is: no field is emitted. *)
Lemma position_fields_zero_latitude (lon : pyval) :
  position_fields (PDict [("latitude_i", PInt 0); ("longitude_i", lon)]) = Ok [].
Proof. reflexivity. Qed.

(** C2. A position message with [latitude_i = 0] and
    [longitude_i = 123456789] goes through the whole of [on_message] and is
    sent to the telemetry webhook, but the notification has neither a
    Location nor a Map field: [0 or None] is [None], so the test
    [lat_i is not None] fails before [lat_i != 0 or lon_i != 0] is reached.
    With [latitude_i = 1] both fields are there, and with both coordinates
    0 neither is. *)
Theorem zero_latitude_drops_location :
  (∃ e,
     (on_message example_config pop_smallest true "meshtastic/json/2/position"
        (Ok (position_payload 0 123456789)) initial).1.2
     = [Execute (DISCORD_TELEMETRY_WEBHOOK_URL example_config) e]
     ∧ has_field "Location" e = false
     ∧ has_field "Map" e = false)
  ∧ (∃ e,
       (on_message example_config pop_smallest true "meshtastic/json/2/position"
          (Ok (position_payload 1 123456789)) initial).1.2
       = [Execute (DISCORD_TELEMETRY_WEBHOOK_URL example_config) e]
       ∧ has_field "Location" e = true
       ∧ has_field "Map" e = true)
  ∧ (∃ e,
       (on_message example_config pop_smallest true "meshtastic/json/2/position"
          (Ok (position_payload 0 0)) initial).1.2
       = [Execute (DISCORD_TELEMETRY_WEBHOOK_URL example_config) e]
       ∧ has_field "Location" e = false
       ∧ has_field "Map" e = false).
Proof.
  repeat split; eexists; (split; [vm_compute; reflexivity|]);
    split; vm_compute; reflexivity.
Qed.

(** ** The duplicate filter *)

Lemma pop_smallest_valid : pop_valid pop_smallest.
Proof.
  intros s Hs. unfold pop_smallest.
  destruct (elements s) as [|k ks] eqn:He.
  - apply elements_empty_inv in He. apply leibniz_equiv in He. contradiction.
  - apply elem_of_elements. rewrite He. clear.
    induction ks as [|a ks IH]; simpl.
    + apply list_elem_of_here.
    + destruct (hkey_le a _).
      * apply list_elem_of_further, list_elem_of_here.
      * apply elem_of_cons in IH as [IH|IH].
        -- rewrite IH. apply list_elem_of_here.
        -- apply list_elem_of_further, list_elem_of_further, IH.
Qed.

(** An admission never leaves more than [MAX_SEEN_MESSAGES] ids. *)
Lemma duplicate_prevention_size pop id (seen seen' : gset hkey) :
  pop_valid pop →
  (size seen ≤ MAX_SEEN_MESSAGES)%nat →
  duplicate_prevention pop id seen = Ok (Some seen') →
  (size seen' ≤ MAX_SEEN_MESSAGES)%nat.
Proof.
  intros Hpop Hsize. unfold duplicate_prevention.
  destruct id as [msg_id|]; [|intros [= <-]; exact Hsize].
  destruct (hash_key msg_id) as [k|e]; simpl; [|discriminate].
  destruct (decide (k ∈ seen)) as [Hin|Hnin]; [discriminate|].
  assert (Hs1 : size (seen ∪ {[k]}) = S (size seen)).
  { rewrite size_union by set_solver. rewrite size_singleton. lia. }
  destruct (decide (MAX_SEEN_MESSAGES < size (seen ∪ {[k]}))%nat) as [Hbig|Hok];
    intros [= <-]; [|lia].
  assert (Hin : pop (seen ∪ {[k]}) ∈ seen ∪ {[k]}).
  { apply Hpop. set_solver. }
  rewrite size_difference by set_solver. rewrite size_singleton. lia.
Qed.

(** What [on_message] does to [seen_messages]: nothing, or one admission. *)
Lemma on_message_seen cfg pop execute_ok topic loaded st :
  let st' := (on_message cfg pop execute_ok topic loaded st).1.1 in
  seen_messages st' = seen_messages st
  ∨ ∃ id, duplicate_prevention pop id (seen_messages st) = Ok (Some (seen_messages st')).
Proof.
  unfold on_message.
  destruct (contains "/json/" topic); simpl; [|left; reflexivity].
  destruct (parse_meshtastic_message topic loaded (node_names st)) as [[m|] c1];
    [|left; reflexivity].
  destruct (duplicate_prevention pop (msg_id m) (seen_messages st))
    as [[seen'|]|e] eqn:Hd; try (left; reflexivity).
  right. exists (msg_id m). rewrite Hd. f_equal. f_equal.
  destruct (py_eq_str (msg_type m) "text"); [reflexivity|].
  destruct (is_telemetry_type (msg_type m)) as [[|]|e]; try reflexivity.
  destruct (send_telemetry_to_discord cfg execute_ok m c1). reflexivity.
Qed.

Lemma run_seen_bounded cfg ds : ∀ st,
  Forall (fun d => pop_valid (d_pop d)) ds →
  (size (seen_messages st) ≤ MAX_SEEN_MESSAGES)%nat →
  (size (seen_messages (run cfg ds st).1) ≤ MAX_SEEN_MESSAGES)%nat.
Proof.
  induction ds as [|d ds IH]; intros st Hpops Hsize; [exact Hsize|].
  apply Forall_cons in Hpops as [Hpop Hpops]. simpl.
  destruct (deliver cfg d st) as [[st1 calls1] r] eqn:Hstep.
  specialize (IH st1 Hpops).
  destruct (run cfg ds st1) as [st2 calls2]. simpl in *. apply IH.
  pose proof (on_message_seen cfg (d_pop d) (d_execute_ok d) (d_topic d)
                (d_loaded d) st) as Hseen.
  unfold deliver in Hstep. rewrite Hstep in Hseen. simpl in Hseen.
  destruct Hseen as [->|[id Hadm]]; [exact Hsize|].
  exact (duplicate_prevention_size _ _ _ _ Hpop Hsize Hadm).
Qed.

(** C4. Whatever the broker delivers, and whichever element each [pop]
    takes, the set [seen_messages] holds at most 1000 ids after each
    message has been processed: the bound holds after every prefix of the
    deliveries, however many distinct ids they carry. *)
Theorem seen_messages_bounded (cfg : config) (ds : list delivery) (i : nat) :
  Forall (fun d => pop_valid (d_pop d)) ds →
  (size (seen_messages (run cfg (take i ds) initial).1) ≤ 1000)%nat.
Proof.
  intros Hpops. apply run_seen_bounded.
  - apply Forall_take, Hpops.
  - unfold initial, MAX_SEEN_MESSAGES. cbn [seen_messages].
    rewrite size_empty. lia.
Qed.

Lemma seen_messages_bounded_witness :
  (size (seen_messages
           (run example_config (take 1002 (text_deliveries 1002)) initial).1)
   ≤ 1000)%nat.
Proof.
  apply (seen_messages_bounded example_config (text_deliveries 1002) 1002).
  unfold text_deliveries. apply Forall_map, Forall_forall.
  intros i _. exact pop_smallest_valid.
Defined.

(** C3. After text messages with the ids 1 to 1000 the set is full.  The
    message with the fresh id 0 is admitted and sent, but its id is added
    before the [pop], and the [pop] (CPython's, which takes the smallest of
    these ids) removes that very id: after the admission the id 0 is not in
    [seen_messages], and the 1000 older ids all are. *)
Theorem admitted_id_is_evicted :
  size (seen_messages full_state) = 1000%nat
  ∧ (KNum (Z2Qc 0) ∉ seen_messages full_state)
  ∧ pop_smallest (seen_messages full_state ∪ {[KNum (Z2Qc 0)]}) = KNum (Z2Qc 0)
  ∧ length (deliver example_config (text_delivery 0) full_state).1.2 = 1%nat
  ∧ (KNum (Z2Qc 0)
     ∉ seen_messages (deliver example_config (text_delivery 0) full_state).1.1)
  ∧ seen_messages (deliver example_config (text_delivery 0) full_state).1.1
    = seen_messages full_state.
Proof. compute_done. Qed.

(** C6. With [seen_messages] full, two text messages that share the fresh
    id 0 are both sent: the first admission evicts the id 0 itself, so the
    second message is not recognised as a duplicate.  From the initial
    state, where the set has room, the second message is dropped. *)
Theorem duplicate_sent_twice_when_full :
  DISCORD_WEBHOOK_URL example_config ≠ ""
  ∧ length (run example_config [text_delivery 0; text_delivery 0] full_state).2
    = 2%nat
  ∧ length (run example_config [text_delivery 0; text_delivery 0] initial).2
    = 1%nat.
Proof. compute_done. Qed.

(** ** Node names and the pipeline *)

Lemma origin_hashable d (c : gmap hkey names) from_id from :
  origin d c = Ok (Some (from_id, from)) → ∃ k, hash_key from_id = Ok k.
Proof.
  unfold origin. destruct (assoc "from" d) as [v|].
  - destruct (format_08x v) as [digits|e]; simpl; [|discriminate].
    intros [= <- _]. eexists. reflexivity.
  - destruct (assoc "sender" d) as [sender|]; [|discriminate].
    unfold get_node_display_name.
    destruct (hash_key sender) as [k|e] eqn:Hk; simpl; [|discriminate].
    intros [= <- _]. eauto.
Qed.

Lemma merged_again short_name long_name (old : option names) :
  merged short_name long_name (Some (merged short_name long_name old))
  = merged short_name long_name old.
Proof.
  unfold merged. destruct (truthy short_name), (truthy long_name); reflexivity.
Qed.

Lemma merged_long_then_short short_name long_name (old : option names) :
  merged short_name PNone (Some (merged PNone long_name old))
  = merged short_name long_name old.
Proof.
  unfold merged. destruct (truthy short_name), (truthy long_name); reflexivity.
Qed.

(** The user block of the formatter is [payload['user']] when the payload
    has that key. *)
Lemma user_block_of_user p u :
  assoc "user" p = Some (PDict u) →
  dict_get_default "user" (PDict p) p = PDict u.
Proof. intros Hu. unfold dict_get_default. rewrite Hu. reflexivity. Qed.

(** The cache that the nodeinfo branch of the formatter leaves: the names
    in the user block merged into the record of [from_id], or the cache as
    it was when the block has neither name. *)
Lemma nodeinfo_fields_cache m p u k (c : gmap hkey names) :
  hash_key (msg_from_id m) = Ok k →
  dict_get_default "user" (PDict p) p = PDict u →
  let short_name := py_or (dict_get "shortName" u) (dict_get "shortname" u) in
  let long_name := py_or (dict_get "longName" u) (dict_get "longname" u) in
  (nodeinfo_fields m (PDict p) c).2
  = if truthy long_name || truthy short_name
    then <[k := merged short_name long_name (c !! k)]> c
    else c.
Proof.
  intros Hk Hu short_name long_name. unfold nodeinfo_fields.
  rewrite Hu. fold short_name long_name.
  destruct (truthy long_name) eqn:Hl.
  - rewrite (update_node_name_eq _ _ _ _ _ Hk).
    destruct (truthy short_name) eqn:Hs; simpl.
    + rewrite (update_node_name_eq _ _ _ _ _ Hk). simpl.
      rewrite lookup_insert_eq, insert_insert_eq, merged_long_then_short.
      reflexivity.
    + f_equal. unfold merged. rewrite Hl, Hs. reflexivity.
  - destruct (truthy short_name) eqn:Hs; simpl; [|reflexivity].
    rewrite (update_node_name_eq _ _ _ _ _ Hk). simpl.
    f_equal. unfold merged. rewrite Hl, Hs. reflexivity.
Qed.

(** The formatter touches the cache in its nodeinfo branch only. *)
Lemma send_telemetry_to_discord_cache cfg execute_ok m p (c : gmap hkey names) :
  truthy (PStr (DISCORD_TELEMETRY_WEBHOOK_URL cfg)) = true →
  msg_type m = PStr "nodeinfo" →
  msg_payload m = Some (PDict p) →
  (send_telemetry_to_discord cfg execute_ok m c).2
  = (nodeinfo_fields m (PDict p) c).2.
Proof.
  intros Hurl Ht Hp. unfold send_telemetry_to_discord.
  rewrite Hurl, Ht, Hp.
  change (default (PDict []) (Some (PDict p))) with (PDict p).
  remember (nodeinfo_fields m (PDict p) c) as nf eqn:Hnf.
  destruct nf as [[fields|e] c']; simpl; [|reflexivity].
  destruct (timestamp_footer cfg (msg_timestamp m)); [|reflexivity].
  destruct execute_ok; reflexivity.
Qed.

Lemma send_telemetry_to_discord_unconfigured cfg execute_ok m
    (c : gmap hkey names) :
  truthy (PStr (DISCORD_TELEMETRY_WEBHOOK_URL cfg)) = false →
  send_telemetry_to_discord cfg execute_ok m c = ([], c).
Proof. intros Hurl. unfold send_telemetry_to_discord. rewrite Hurl. reflexivity. Qed.

(** The parse of a nodeinfo message: [user] is the dict that
    [data.get('payload', {}).get('user', {})] gives. *)
Lemma parse_nodeinfo topic d u from_id from k (c : gmap hkey names) :
  assoc "type" d = Some (PStr "nodeinfo") →
  origin d c = Ok (Some (from_id, from)) →
  hash_key from_id = Ok k →
  py_get_default "user" (PDict []) (dict_get_default "payload" (PDict []) d)
  = Ok (PDict u) →
  parse_meshtastic_message topic (Ok (PDict d)) c
  = (Some {| msg_topic := topic; msg_type := PStr "nodeinfo";
             msg_id := assoc "id" d; msg_timestamp := assoc "timestamp" d;
             msg_from_id := from_id; msg_from := from;
             msg_channel := topic_channel topic;
             msg_payload := assoc "payload" d; msg_text := None;
             msg_rssi := assoc "rssi" d; msg_snr := assoc "snr" d |},
     <[k := merged (py_or (dict_get "shortName" u) (dict_get "shortname" u))
                   (py_or (dict_get "longName" u) (dict_get "longname" u))
                   (c !! k)]> c).
Proof.
  intros Ht Ho Hk Hu.
  assert (Hty : dict_get_default "type" (PStr "unknown") d = PStr "nodeinfo")
    by (unfold dict_get_default; rewrite Ht; reflexivity).
  unfold parse_meshtastic_message, parse_body. cbn [bind].
  rewrite Ho. cbn [bind]. rewrite !Hty.
  change (py_eq_str (PStr "nodeinfo") "text") with false.
  change (py_eq_str (PStr "nodeinfo") "nodeinfo") with true.
  cbn [bind]. rewrite Hu. cbn [bind py_get py_get_default].
  rewrite (update_node_name_eq _ _ _ _ _ Hk). reflexivity.
Qed.

(** C5. A nodeinfo message on a JSON topic, with an origin and a user block
    under its payload, leaves the node name cache updated for its [from_id]
    with the names of the block (either spelling), whatever
    [seen_messages] holds: the record of [from_id] holds the merged names
    after [on_message], and when the id of the message is already in
    [seen_messages] the message is dropped as a duplicate, nothing is sent,
    and the cache is updated all the same, because the parser runs, and
    updates the cache, before the duplicate test. *)
Theorem nodeinfo_updates_cache_before_dedup (cfg : config) (pop : gset hkey → hkey)
    (execute_ok : bool) (topic : string) (d p u : list (string * pyval))
    (st : state) (from_id from : pyval) :
  contains "/json/" topic = true →
  assoc "type" d = Some (PStr "nodeinfo") →
  origin d (node_names st) = Ok (Some (from_id, from)) →
  assoc "payload" d = Some (PDict p) →
  assoc "user" p = Some (PDict u) →
  let short_name := py_or (dict_get "shortName" u) (dict_get "shortname" u) in
  let long_name := py_or (dict_get "longName" u) (dict_get "longname" u) in
  ∃ c1 k,
    hash_key from_id = Ok k
    ∧ update_node_name from_id short_name long_name (node_names st) = Ok c1
    ∧ c1 !! k = Some (merged short_name long_name (node_names st !! k))
    ∧ node_names (on_message cfg pop execute_ok topic (Ok (PDict d)) st).1.1 = c1
    ∧ (∀ id kid,
         assoc "id" d = Some id → hash_key id = Ok kid →
         kid ∈ seen_messages st →
         on_message cfg pop execute_ok topic (Ok (PDict d)) st
         = (State c1 (seen_messages st), [], Ok tt)).
Proof.
  intros Hjson Ht Ho Hp Hu short_name long_name.
  destruct (origin_hashable _ _ _ _ Ho) as [k Hk].
  exists (<[k := merged short_name long_name (node_names st !! k)]> (node_names st)), k.
  split; [exact Hk|]. split; [exact (update_node_name_eq _ _ _ _ _ Hk)|].
  split; [apply lookup_insert_eq|].
  assert (Huser : py_get_default "user" (PDict [])
                    (dict_get_default "payload" (PDict []) d) = Ok (PDict u)).
  { unfold py_get_default, dict_get_default. rewrite Hp. cbv beta iota.
    rewrite Hu. reflexivity. }
  pose proof (parse_nodeinfo topic d u from_id from k (node_names st)
                Ht Ho Hk Huser) as Hparse.
  rewrite Hp in Hparse. fold short_name long_name in Hparse.
  split.
  - unfold on_message. rewrite Hjson, Hparse. simpl.
    destruct (duplicate_prevention pop (assoc "id" d) (seen_messages st))
      as [[seen'|]|e]; try reflexivity.
    change (is_telemetry_type (PStr "nodeinfo")) with (Ok true (A:=bool)).
    cbv iota.
    destruct (truthy (PStr (DISCORD_TELEMETRY_WEBHOOK_URL cfg))) eqn:Hurl.
    + match goal with
      | |- context [send_telemetry_to_discord cfg execute_ok ?m ?c] =>
          pose proof (send_telemetry_to_discord_cache cfg execute_ok m p c
                        Hurl eq_refl eq_refl) as Hsend;
          rewrite (nodeinfo_fields_cache m p u k c Hk (user_block_of_user p u Hu))
            in Hsend;
          destruct (send_telemetry_to_discord cfg execute_ok m c) as [calls c2]
      end.
      simpl in *. rewrite Hsend. fold short_name long_name.
      rewrite lookup_insert_eq, insert_insert_eq, merged_again.
      destruct (truthy long_name || truthy short_name); reflexivity.
    + rewrite send_telemetry_to_discord_unconfigured by exact Hurl.
      reflexivity.
  - intros id kid Hid Hkid Hseen. unfold on_message.
    rewrite Hjson, Hparse. simpl. rewrite Hid. simpl. rewrite Hkid. simpl.
    rewrite decide_True by exact Hseen. reflexivity.
Qed.

Lemma nodeinfo_updates_cache_before_dedup_witness :
  ∃ c1,
    on_message example_config pop_smallest true "meshtastic/json/2/nodeinfo"
      (Ok nodeinfo_payload) seen_42
    = (State c1 (seen_messages seen_42), [], Ok tt)
    ∧ c1 !! KStr "!00000001"
      = Some (Names (Some (PStr "B1")) (Some (PStr "Base One"))).
Proof.
  assert (Ho : origin nodeinfo_dict (node_names seen_42)
               = Ok (Some (PStr "!00000001", PStr "!00000001")))
    by (vm_compute; reflexivity).
  destruct (nodeinfo_updates_cache_before_dedup example_config pop_smallest true
              "meshtastic/json/2/nodeinfo" nodeinfo_dict nodeinfo_inner
              nodeinfo_user seen_42 (PStr "!00000001") (PStr "!00000001")
              eq_refl eq_refl Ho eq_refl eq_refl)
    as (c1 & k & Hk & _ & Hl & _ & Hdup).
  injection Hk as <-. exists c1. split.
  - apply (Hdup (PInt 42) (KNum (Z2Qc 42)) eq_refl eq_refl).
    unfold seen_42. cbn [seen_messages]. apply elem_of_singleton. reflexivity.
  - rewrite Hl. vm_compute. reflexivity.
Defined.

(** C10 (amended). With the telemetry webhook configured, formatting a
    nodeinfo message writes to the node name cache when the user block of
    the formatter, which is [payload['user']] or the payload itself when it
    has no such key, carries a long or a short name: the cache that
    [send_telemetry_to_discord] leaves is the one an update of [from_id]
    with these names gives, so the record of [from_id] holds them, and a
    cache without a record of [from_id] is changed.  When the names are
    under [payload['user']], where the parser reads them, this is a second
    update that applies the same names again: on the cache the parser left
    it changes nothing. *)
Theorem nodeinfo_formatter_updates_cache (cfg : config) (execute_ok : bool)
    (m : message) (p u : list (string * pyval)) (k : hkey)
    (c : gmap hkey names) :
  truthy (PStr (DISCORD_TELEMETRY_WEBHOOK_URL cfg)) = true →
  msg_type m = PStr "nodeinfo" →
  msg_payload m = Some (PDict p) →
  dict_get_default "user" (PDict p) p = PDict u →
  hash_key (msg_from_id m) = Ok k →
  let short_name := py_or (dict_get "shortName" u) (dict_get "shortname" u) in
  let long_name := py_or (dict_get "longName" u) (dict_get "longname" u) in
  truthy long_name || truthy short_name = true →
  update_node_name (msg_from_id m) short_name long_name c
  = Ok (send_telemetry_to_discord cfg execute_ok m c).2
  ∧ (send_telemetry_to_discord cfg execute_ok m c).2 !! k
    = Some (merged short_name long_name (c !! k))
  ∧ (c !! k = None → (send_telemetry_to_discord cfg execute_ok m c).2 ≠ c)
  ∧ (assoc "user" p = Some (PDict u) →
     ∀ c0, update_node_name (msg_from_id m) short_name long_name c0 = Ok c →
       (send_telemetry_to_discord cfg execute_ok m c).2 = c).
Proof.
  intros Hurl Ht Hp Hu Hk short_name long_name Hname.
  rewrite (send_telemetry_to_discord_cache cfg execute_ok m p c Hurl Ht Hp).
  rewrite (nodeinfo_fields_cache m p u k c Hk Hu).
  fold short_name long_name. rewrite Hname.
  split; [exact (update_node_name_eq _ _ _ _ _ Hk)|].
  split; [apply lookup_insert_eq|]. split.
  - intros Hnone Heq.
    assert (Hl : (<[k := merged short_name long_name (c !! k)]> c) !! k = None)
      by (rewrite Heq; exact Hnone).
    rewrite lookup_insert_eq in Hl. discriminate.
  - intros _ c0 Hc0. rewrite (update_node_name_eq _ _ _ _ _ Hk) in Hc0.
    injection Hc0 as <-.
    rewrite lookup_insert_eq, insert_insert_eq, merged_again. reflexivity.
Qed.

Lemma nodeinfo_formatter_updates_cache_witness :
  (send_telemetry_to_discord example_config true nodeinfo_message
     (node_names initial)).2 !! KStr "!00000001"
  = Some (Names (Some (PStr "B1")) (Some (PStr "Base One")))
  ∧ (send_telemetry_to_discord example_config true nodeinfo_message
       (node_names initial)).2 ≠ node_names initial.
Proof.
  destruct (nodeinfo_formatter_updates_cache example_config true nodeinfo_message
              nodeinfo_inner nodeinfo_user (KStr "!00000001")
              (node_names initial)
              eq_refl eq_refl eq_refl eq_refl eq_refl eq_refl)
    as (_ & Hl & Hne & _).
  split.
  - rewrite Hl. reflexivity.
  - apply Hne. apply lookup_empty.
Defined.

(** C10, as stated, fails on a nodeinfo message whose names sit at the top
    level of the payload, with no [user] key.  The parser reads
    [payload.get('user', {})] and applies no name: it leaves an empty record
    for the node.  The formatter reads [payload.get('user', payload)], finds
    the long name in its user block and stores it: its update is the first
    to apply the name, not a second application of names the parser had
    applied, and the cache it leaves differs from the one the parser left. *)
Lemma formatter_applies_names_parser_did_not :
  parse_meshtastic_message "meshtastic/json/2/nodeinfo" (Ok toplevel_payload)
    (node_names initial) = (Some toplevel_message, toplevel_cache)
  ∧ msg_type toplevel_message = PStr "nodeinfo"
  ∧ truthy (PStr (DISCORD_TELEMETRY_WEBHOOK_URL example_config)) = true
  ∧ (∃ p, msg_payload toplevel_message = Some (PDict p)
          ∧ py_or (dict_get "longName" p) (dict_get "longname" p)
            = PStr "Base One"
          ∧ dict_get_default "user" (PDict p) p = PDict p)
  ∧ toplevel_cache !! KStr "!00000001" = Some (Names None None)
  ∧ (send_telemetry_to_discord example_config true toplevel_message
       toplevel_cache).2 !! KStr "!00000001"
    = Some (Names None (Some (PStr "Base One")))
  ∧ (send_telemetry_to_discord example_config true toplevel_message
       toplevel_cache).2 ≠ toplevel_cache.
Proof.
  assert (Hafter : (send_telemetry_to_discord example_config true
                      toplevel_message toplevel_cache).2 !! KStr "!00000001"
                   = Some (Names None (Some (PStr "Base One"))))
    by (vm_compute; reflexivity).
  assert (Hbefore : toplevel_cache !! KStr "!00000001" = Some (Names None None))
    by apply lookup_insert_eq.
  assert (Ho : origin toplevel_dict (node_names initial)
               = Ok (Some (PStr "!00000001", PStr "!00000001")))
    by (vm_compute; reflexivity).
  split.
  { unfold toplevel_payload.
    rewrite (parse_nodeinfo "meshtastic/json/2/nodeinfo" toplevel_dict []
               (PStr "!00000001") (PStr "!00000001") (KStr "!00000001")
               (node_names initial) eq_refl Ho eq_refl eq_refl).
    reflexivity. }
  split; [reflexivity|]. split; [reflexivity|].
  split; [eexists; split; [reflexivity|]; split; reflexivity|].
  split; [exact Hbefore|]. split; [exact Hafter|].
  intros Heq. rewrite Heq, Hbefore in Hafter. discriminate.
Qed.

(** ** Duplicates below the capacity *)

Lemma send_to_discord_once cfg execute_ok m :
  truthy (PStr (DISCORD_WEBHOOK_URL cfg)) = true →
  length (send_to_discord cfg execute_ok m) = 1%nat.
Proof.
  intros Hurl. unfold send_to_discord. rewrite Hurl. simpl.
  destruct execute_ok; reflexivity.
Qed.

(** While [seen_messages] has room, of two text messages that share a
    fresh id the first is sent and the second is dropped. *)
Lemma text_pair_sent_once cfg d1 d2 st m1 m2 (c1 c2 : gmap hkey names)
    id1 id2 k :
  contains "/json/" (d_topic d1) = true →
  contains "/json/" (d_topic d2) = true →
  truthy (PStr (DISCORD_WEBHOOK_URL cfg)) = true →
  parse_meshtastic_message (d_topic d1) (d_loaded d1) (node_names st)
  = (Some m1, c1) →
  parse_meshtastic_message (d_topic d2) (d_loaded d2) c1 = (Some m2, c2) →
  py_eq_str (msg_type m1) "text" = true →
  py_eq_str (msg_type m2) "text" = true →
  msg_id m1 = Some id1 → msg_id m2 = Some id2 →
  hash_key id1 = Ok k → hash_key id2 = Ok k →
  k ∉ seen_messages st →
  (size (seen_messages st) < MAX_SEEN_MESSAGES)%nat →
  (run cfg [d1; d2] st).2 = send_to_discord cfg (d_execute_ok d1) m1
  ∧ length (run cfg [d1; d2] st).2 = 1%nat.
Proof.
  intros Hj1 Hj2 Hurl Hp1 Hp2 Ht1 Ht2 Hi1 Hi2 Hk1 Hk2 Hfresh Hroom.
  assert (Hrun : (run cfg [d1; d2] st).2 = send_to_discord cfg (d_execute_ok d1) m1).
  { unfold run, deliver, on_message.
    rewrite Hj1, Hp1. simpl. rewrite Hi1. simpl. rewrite Hk1. simpl.
    rewrite decide_False by exact Hfresh.
    assert (Hs1 : size (seen_messages st ∪ {[k]}) = S (size (seen_messages st))).
    { rewrite size_union by set_solver. rewrite size_singleton. lia. }
    rewrite decide_False by lia.
    rewrite Ht1, Hj2. simpl. rewrite Hp2, Hi2. simpl. rewrite Hk2. simpl.
    rewrite decide_True by set_solver. simpl. apply app_nil_r. }
  split; [exact Hrun|]. rewrite Hrun. apply send_to_discord_once, Hurl.
Qed.

(** After an admission the admitted id is in [seen_messages] unless the
    set overflowed and the [pop] took that very id. *)
Lemma admitted_id_kept_unless_popped pop id k (seen seen' : gset hkey) :
  hash_key id = Ok k →
  duplicate_prevention pop (Some id) seen = Ok (Some seen') →
  k ∈ seen'
  ↔ ¬ ((MAX_SEEN_MESSAGES < size (seen ∪ {[k]}))%nat ∧ pop (seen ∪ {[k]}) = k).
Proof.
  intros Hk. unfold duplicate_prevention. rewrite Hk. simpl.
  destruct (decide (k ∈ seen)) as [Hin|Hnin]; [discriminate|].
  destruct (decide (MAX_SEEN_MESSAGES < size (seen ∪ {[k]}))%nat) as [Hbig|Hok];
    intros [= <-].
  - split.
    + intros Hkept [_ Hpop]. apply elem_of_difference in Hkept as [_ Hkept].
      apply Hkept, elem_of_singleton. symmetry. exact Hpop.
    + intros Hnot. apply elem_of_difference. split.
      * apply elem_of_union_r, elem_of_singleton. reflexivity.
      * intros Hpop. apply elem_of_singleton in Hpop. apply Hnot.
        split; [exact Hbig|]. symmetry. exact Hpop.
  - split; [|set_solver]. intros _ [Hbig _]. contradiction.
Qed.

(** ** The caches of the pipeline are built by updates *)

Lemma parse_cache_state topic loaded (c : gmap hkey names) :
  cache_state c → cache_state (parse_meshtastic_message topic loaded c).2.
Proof.
  intros Hc.
  destruct (parse_meshtastic_message topic loaded c) as [[m|] c'] eqn:Hp.
  - apply parse_inv in Hp as (d & from_id & from & text & _ & _ & _ & Hup).
    simpl. destruct (py_eq_str _ "nodeinfo").
    + destruct Hup as (u & _ & Hup). exact (cache_update _ _ _ _ _ Hc Hup).
    + subst c'. exact Hc.
  - unfold parse_meshtastic_message in Hp.
    destruct (parse_body topic loaded c) as [[[m c1]|]|e];
      [discriminate| |]; injection Hp as <-; exact Hc.
Qed.

Lemma nodeinfo_fields_cache_state m payload (c : gmap hkey names) :
  cache_state c → cache_state (nodeinfo_fields m payload c).2.
Proof.
  intros Hc. unfold nodeinfo_fields.
  destruct payload as [| | | | | |p]; try exact Hc.
  destruct (dict_get_default "user" (PDict p) p) as [| | | | | |u]; try exact Hc.
  set (long_name := py_or (dict_get "longName" u) (dict_get "longname" u)).
  set (short_name := py_or (dict_get "shortName" u) (dict_get "shortname" u)).
  assert (H1 : ∀ c1,
    (if truthy long_name
     then update_node_name (msg_from_id m) PNone long_name c
     else Ok c) = Ok c1 → cache_state c1).
  { intros c1. destruct (truthy long_name).
    - intros Hu. exact (cache_update _ _ _ _ _ Hc Hu).
    - intros [= <-]. exact Hc. }
  destruct (if truthy long_name then _ else _) as [c1|e]; [|exact Hc].
  specialize (H1 c1 eq_refl).
  assert (H2 : ∀ c2,
    (if truthy short_name
     then update_node_name (msg_from_id m) short_name PNone c1
     else Ok c1) = Ok c2 → cache_state c2).
  { intros c2. destruct (truthy short_name).
    - intros Hu. exact (cache_update _ _ _ _ _ H1 Hu).
    - intros [= <-]. exact H1. }
  destruct (if truthy short_name then _ else _) as [c2|e]; [|exact H1].
  exact (H2 c2 eq_refl).
Qed.

Lemma send_telemetry_to_discord_cache_state cfg execute_ok m
    (c : gmap hkey names) :
  cache_state c → cache_state (send_telemetry_to_discord cfg execute_ok m c).2.
Proof.
  intros Hc. unfold send_telemetry_to_discord.
  destruct (truthy (PStr (DISCORD_TELEMETRY_WEBHOOK_URL cfg))); [|exact Hc].
  simpl negb. cbv iota.
  destruct (msg_type m) as [| | | |t| |]; try exact Hc.
  destruct (title_and_color t) as [title color].
  assert (Hbody : cache_state
    (if String.eqb t "position"
     then (position_fields (default (PDict []) (msg_payload m)), c)
     else if String.eqb t "telemetry"
          then (telemetry_fields (default (PDict []) (msg_payload m)), c)
          else if String.eqb t "nodeinfo"
               then nodeinfo_fields m (default (PDict []) (msg_payload m)) c
               else (Ok [], c)).2).
  { destruct (String.eqb t "position"); [exact Hc|].
    destruct (String.eqb t "telemetry"); [exact Hc|].
    destruct (String.eqb t "nodeinfo"); [|exact Hc].
    apply nodeinfo_fields_cache_state, Hc. }
  destruct (if String.eqb t "position" then _ else _) as [[fields|e] c'];
    [|exact Hbody].
  destruct (timestamp_footer cfg (msg_timestamp m)); [|exact Hbody].
  destruct execute_ok; exact Hbody.
Qed.

Lemma on_message_cache_state cfg pop execute_ok topic loaded st :
  cache_state (node_names st) →
  cache_state (node_names (on_message cfg pop execute_ok topic loaded st).1.1).
Proof.
  intros Hc. unfold on_message.
  destruct (contains "/json/" topic); [|exact Hc]. simpl negb. cbv iota.
  pose proof (parse_cache_state topic loaded (node_names st) Hc) as Hp.
  destruct (parse_meshtastic_message topic loaded (node_names st)) as [[m|] c1];
    [|exact Hp].
  simpl in Hp.
  destruct (duplicate_prevention pop (msg_id m) (seen_messages st))
    as [[seen'|]|e]; try exact Hp.
  destruct (py_eq_str (msg_type m) "text"); [exact Hp|].
  destruct (is_telemetry_type (msg_type m)) as [[|]|e]; try exact Hp.
  pose proof (send_telemetry_to_discord_cache_state cfg execute_ok m c1 Hp) as Hs.
  destruct (send_telemetry_to_discord cfg execute_ok m c1) as [calls c2].
  exact Hs.
Qed.

(** Every cache the pipeline reaches is one that updates have built. *)
Lemma run_cache_state cfg ds : ∀ st,
  cache_state (node_names st) → cache_state (node_names (run cfg ds st).1).
Proof.
  induction ds as [|d ds IH]; intros st Hc; [exact Hc|].
  simpl. pose proof (on_message_cache_state cfg (d_pop d) (d_execute_ok d)
                       (d_topic d) (d_loaded d) st Hc) as Hstep.
  unfold deliver.
  destruct (on_message cfg (d_pop d) (d_execute_ok d) (d_topic d) (d_loaded d) st)
    as [[st1 calls1] r].
  specialize (IH st1 Hstep). destruct (run cfg ds st1) as [st2 calls2].
  exact IH.
Qed.

(** * Further properties of the code *)

(** ** The node name cache, continued *)

Lemma display_of_long node_id k (c : gmap hkey names) r l :
  hash_key node_id = Ok k →
  c !! k = Some r →
  long r = Some l →
  truthy l = true →
  get_node_display_name node_id c = Ok l.
Proof.
  intros Hk Hr Hl Ht. unfold get_node_display_name. rewrite Hk. simpl.
  rewrite Hr, Hl. simpl. rewrite Ht. reflexivity.
Qed.

(** X1. Once [update_node_name] has stored a non-empty long name for a
    node, [get_node_display_name] returns that name, and it keeps returning
    it after any further update of the node that brings no long name,
    whatever short name that update brings. *)
Theorem long_name_is_displayed (node_id : pyval) (k : hkey)
    (short_name long_name : pyval) (c : gmap hkey names) :
  hash_key node_id = Ok k →
  truthy long_name = true →
  ∃ c1,
    update_node_name node_id short_name long_name c = Ok c1
    ∧ get_node_display_name node_id c1 = Ok long_name
    ∧ ∀ short_name2 long_name2,
        truthy long_name2 = false →
        ∃ c2,
          update_node_name node_id short_name2 long_name2 c1 = Ok c2
          ∧ get_node_display_name node_id c2 = Ok long_name.
Proof.
  intros Hk Ht. eexists. split; [exact (update_node_name_eq _ _ _ _ _ Hk)|].
  split.
  - eapply display_of_long; [exact Hk|apply lookup_insert_eq| |exact Ht].
    unfold merged. simpl. rewrite Ht. reflexivity.
  - intros s2 l2 Hl2. eexists.
    split; [exact (update_node_name_eq _ _ _ _ _ Hk)|].
    eapply display_of_long; [exact Hk|apply lookup_insert_eq| |exact Ht].
    rewrite lookup_insert_eq. unfold merged. simpl. rewrite Hl2, Ht.
    reflexivity.
Qed.

Lemma long_name_is_displayed_witness :
  ∃ c1,
    update_node_name (PStr "!00000001") PNone (PStr "Base One") ∅ = Ok c1
    ∧ get_node_display_name (PStr "!00000001") c1 = Ok (PStr "Base One")
    ∧ ∃ c2,
        update_node_name (PStr "!00000001") (PStr "B1") (PStr "") c1 = Ok c2
        ∧ get_node_display_name (PStr "!00000001") c2 = Ok (PStr "Base One").
Proof.
  destruct (long_name_is_displayed (PStr "!00000001") (KStr "!00000001") PNone
              (PStr "Base One") ∅ eq_refl eq_refl) as (c1 & Hu & Hd & Hlater).
  exists c1. split; [exact Hu|]. split; [exact Hd|].
  exact (Hlater (PStr "B1") (PStr "") eq_refl).
Defined.

(** X2. Applying the same update twice is the same as applying it once. *)
Theorem update_node_name_twice (node_id short_name long_name : pyval)
    (c c1 : gmap hkey names) :
  update_node_name node_id short_name long_name c = Ok c1 →
  update_node_name node_id short_name long_name c1 = Ok c1.
Proof.
  intros Hu. destruct (update_node_name_hashable _ _ _ _ _ Hu) as [k Hk].
  rewrite (update_node_name_eq _ _ _ _ _ Hk) in Hu. injection Hu as <-.
  rewrite (update_node_name_eq _ _ _ _ _ Hk).
  rewrite lookup_insert_eq, insert_insert_eq, merged_again. reflexivity.
Qed.

Lemma update_node_name_twice_witness :
  ∃ c1,
    update_node_name (PStr "!00000001") (PStr "B1") PNone ∅ = Ok c1
    ∧ update_node_name (PStr "!00000001") (PStr "B1") PNone c1 = Ok c1.
Proof.
  assert (Hu : update_node_name (PStr "!00000001") (PStr "B1") PNone ∅
               = Ok (<[KStr "!00000001" := merged (PStr "B1") PNone None]> ∅)).
  { rewrite (update_node_name_eq _ (KStr "!00000001")) by reflexivity.
    rewrite lookup_empty. reflexivity. }
  eexists. split; [exact Hu|].
  exact (update_node_name_twice _ _ _ _ _ Hu).
Defined.

(** X3. Updates of two different nodes can be applied in either order. *)
Theorem update_node_name_commutes (x y : pyval) (kx ky : hkey)
    (short_x long_x short_y long_y : pyval) (c : gmap hkey names) :
  hash_key x = Ok kx →
  hash_key y = Ok ky →
  kx ≠ ky →
  (do c1 <- update_node_name x short_x long_x c;
   update_node_name y short_y long_y c1)
  = (do c1 <- update_node_name y short_y long_y c;
     update_node_name x short_x long_x c1).
Proof.
  intros Hx Hy Hne.
  rewrite (update_node_name_eq _ _ _ _ c Hx), (update_node_name_eq _ _ _ _ c Hy).
  simpl.
  rewrite (update_node_name_eq _ _ _ _ _ Hx), (update_node_name_eq _ _ _ _ _ Hy).
  rewrite !lookup_insert_ne by congruence.
  rewrite insert_insert_ne by congruence. reflexivity.
Qed.

Lemma update_node_name_commutes_witness :
  (do c1 <- update_node_name (PStr "!00000001") (PStr "B1") PNone ∅;
   update_node_name (PStr "!00000002") PNone (PStr "Base Two") c1)
  = (do c1 <- update_node_name (PStr "!00000002") PNone (PStr "Base Two") ∅;
     update_node_name (PStr "!00000001") (PStr "B1") PNone c1).
Proof.
  apply (update_node_name_commutes (PStr "!00000001") (PStr "!00000002")
           (KStr "!00000001") (KStr "!00000002")); [reflexivity..|].
  discriminate.
Defined.

(** X4. In every state the pipeline reaches from the initial one, every
    stored short or long name passes a truth test: no empty name is ever
    stored. *)
Theorem stored_names_are_nonempty (cfg : config) (ds : list delivery) :
  names_ok (node_names (run cfg ds initial).1).
Proof.
  apply cache_state_names_ok, run_cache_state. exact cache_empty.
Qed.

(** ** What the pipeline does to the node name cache *)

Lemma updated_from_trans (c1 c2 c3 : gmap hkey names) :
  updated_from c1 c2 → updated_from c2 c3 → updated_from c1 c3.
Proof.
  intros H12 H23. induction H23 as [|c node_id s l c' _ IH Hu]; [exact H12|].
  exact (updated_more _ _ _ _ _ _ IH Hu).
Qed.

Lemma parse_updated_from topic loaded (c : gmap hkey names) :
  updated_from c (parse_meshtastic_message topic loaded c).2.
Proof.
  destruct (parse_meshtastic_message topic loaded c) as [[m|] c'] eqn:Hp.
  - apply parse_inv in Hp as (d & from_id & from & text & _ & _ & _ & Hup).
    simpl. destruct (py_eq_str _ "nodeinfo").
    + destruct Hup as (u & _ & Hup).
      exact (updated_more _ _ _ _ _ _ (updated_none c) Hup).
    + subst c'. apply updated_none.
  - unfold parse_meshtastic_message in Hp.
    destruct (parse_body topic loaded c) as [[[m c1]|]|e];
      [discriminate| |]; injection Hp as <-; apply updated_none.
Qed.

Lemma nodeinfo_fields_updated_from m payload (c : gmap hkey names) :
  updated_from c (nodeinfo_fields m payload c).2.
Proof.
  unfold nodeinfo_fields.
  destruct payload as [| | | | | |p]; try apply updated_none.
  destruct (dict_get_default "user" (PDict p) p) as [| | | | | |u];
    try apply updated_none.
  set (long_name := py_or (dict_get "longName" u) (dict_get "longname" u)).
  set (short_name := py_or (dict_get "shortName" u) (dict_get "shortname" u)).
  assert (H1 : ∀ c1,
    (if truthy long_name
     then update_node_name (msg_from_id m) PNone long_name c
     else Ok c) = Ok c1 → updated_from c c1).
  { intros c1. destruct (truthy long_name).
    - intros Hu. exact (updated_more _ _ _ _ _ _ (updated_none c) Hu).
    - intros [= <-]. apply updated_none. }
  destruct (if truthy long_name then _ else _) as [c1|e]; [|apply updated_none].
  specialize (H1 c1 eq_refl).
  assert (H2 : ∀ c2,
    (if truthy short_name
     then update_node_name (msg_from_id m) short_name PNone c1
     else Ok c1) = Ok c2 → updated_from c c2).
  { intros c2. destruct (truthy short_name).
    - intros Hu. exact (updated_more _ _ _ _ _ _ H1 Hu).
    - intros [= <-]. exact H1. }
  destruct (if truthy short_name then _ else _) as [c2|e]; [|exact H1].
  exact (H2 c2 eq_refl).
Qed.

Lemma send_telemetry_to_discord_updated_from cfg execute_ok m
    (c : gmap hkey names) :
  updated_from c (send_telemetry_to_discord cfg execute_ok m c).2.
Proof.
  unfold send_telemetry_to_discord.
  destruct (truthy (PStr (DISCORD_TELEMETRY_WEBHOOK_URL cfg)));
    [|apply updated_none].
  simpl negb. cbv iota.
  destruct (msg_type m) as [| | | |t| |]; try apply updated_none.
  destruct (title_and_color t) as [title color].
  assert (Hbody : updated_from c
    (if String.eqb t "position"
     then (position_fields (default (PDict []) (msg_payload m)), c)
     else if String.eqb t "telemetry"
          then (telemetry_fields (default (PDict []) (msg_payload m)), c)
          else if String.eqb t "nodeinfo"
               then nodeinfo_fields m (default (PDict []) (msg_payload m)) c
               else (Ok [], c)).2).
  { destruct (String.eqb t "position"); [apply updated_none|].
    destruct (String.eqb t "telemetry"); [apply updated_none|].
    destruct (String.eqb t "nodeinfo"); [|apply updated_none].
    apply nodeinfo_fields_updated_from. }
  destruct (if String.eqb t "position" then _ else _) as [[fields|e] c'];
    [|exact Hbody].
  destruct (timestamp_footer cfg (msg_timestamp m)); [|exact Hbody].
  destruct execute_ok; exact Hbody.
Qed.

Lemma on_message_updated_from cfg pop execute_ok topic loaded st :
  updated_from (node_names st)
    (node_names (on_message cfg pop execute_ok topic loaded st).1.1).
Proof.
  unfold on_message.
  destruct (contains "/json/" topic); [|apply updated_none]. simpl negb. cbv iota.
  pose proof (parse_updated_from topic loaded (node_names st)) as Hp.
  destruct (parse_meshtastic_message topic loaded (node_names st)) as [[m|] c1];
    [|exact Hp].
  simpl in Hp.
  destruct (duplicate_prevention pop (msg_id m) (seen_messages st))
    as [[seen'|]|e]; try exact Hp.
  destruct (py_eq_str (msg_type m) "text"); [exact Hp|].
  destruct (is_telemetry_type (msg_type m)) as [[|]|e]; try exact Hp.
  pose proof (send_telemetry_to_discord_updated_from cfg execute_ok m c1) as Hs.
  destruct (send_telemetry_to_discord cfg execute_ok m c1) as [calls c2].
  exact (updated_from_trans _ _ _ Hp Hs).
Qed.

Lemma run_updated_from cfg ds : ∀ st,
  updated_from (node_names st) (node_names (run cfg ds st).1).
Proof.
  induction ds as [|d ds IH]; intros st; [apply updated_none|].
  simpl. pose proof (on_message_updated_from cfg (d_pop d) (d_execute_ok d)
                       (d_topic d) (d_loaded d) st) as Hstep.
  unfold deliver.
  destruct (on_message cfg (d_pop d) (d_execute_ok d) (d_topic d) (d_loaded d) st)
    as [[st1 calls1] r].
  specialize (IH st1). destruct (run cfg ds st1) as [st2 calls2].
  exact (updated_from_trans _ _ _ Hstep IH).
Qed.

Lemma updated_from_names_kept (c c' : gmap hkey names) :
  updated_from c c' → names_kept c c'.
Proof.
  induction 1 as [|c1 node_id s l c2 _ IH Hu].
  - intros k r Hr. exists r. auto.
  - intros k r Hr. destruct (IH k r Hr) as (r1 & Hr1 & Hs & Hl).
    destruct (update_node_name_hashable _ _ _ _ _ Hu) as [kn Hkn].
    rewrite (update_node_name_eq _ _ _ _ _ Hkn) in Hu. injection Hu as <-.
    destruct (decide (kn = k)) as [->|Hne].
    + eexists. split; [apply lookup_insert_eq|]. rewrite Hr1. unfold merged.
      simpl. split; intros Hsome.
      * destruct (truthy s); [eauto|]. exact (Hs Hsome).
      * destruct (truthy l); [eauto|]. exact (Hl Hsome).
    + exists r1. rewrite lookup_insert_ne by exact Hne. auto.
Qed.

(** X5. The pipeline never forgets a name: whatever is delivered, a node
    that has a record in the cache keeps one, and a short or long name that
    is stored for it stays stored (a later nodeinfo may replace its value,
    never blank it). *)
Theorem names_never_lost (cfg : config) (ds : list delivery) (st : state) :
  names_kept (node_names st) (node_names (run cfg ds st).1).
Proof. apply updated_from_names_kept, run_updated_from. Qed.

Lemma parse_keeps_cache topic loaded (c : gmap hkey names) :
  (∀ d, loaded = Ok (PDict d) →
        py_eq_str (dict_get_default "type" (PStr "unknown") d) "nodeinfo" = false) →
  (parse_meshtastic_message topic loaded c).2 = c.
Proof.
  intros Htype.
  destruct (parse_meshtastic_message topic loaded c) as [[m|] c'] eqn:Hp.
  - apply parse_inv in Hp as (d & from_id & from & text & Hl & _ & _ & Hup).
    rewrite (Htype d Hl) in Hup. exact Hup.
  - unfold parse_meshtastic_message in Hp.
    destruct (parse_body topic loaded c) as [[[m c1]|]|e];
      [discriminate| |]; injection Hp as <-; reflexivity.
Qed.

Lemma send_telemetry_to_discord_keeps_cache cfg execute_ok m
    (c : gmap hkey names) :
  py_eq_str (msg_type m) "nodeinfo" = false →
  (send_telemetry_to_discord cfg execute_ok m c).2 = c.
Proof.
  intros Ht. unfold send_telemetry_to_discord.
  destruct (truthy (PStr (DISCORD_TELEMETRY_WEBHOOK_URL cfg))); [|reflexivity].
  simpl negb. cbv iota.
  destruct (msg_type m) as [| | | |t| |]; try reflexivity.
  simpl in Ht. rewrite Ht.
  destruct (title_and_color t) as [title color].
  assert (Hbody :
    (if String.eqb t "position"
     then (position_fields (default (PDict []) (msg_payload m)), c)
     else if String.eqb t "telemetry"
          then (telemetry_fields (default (PDict []) (msg_payload m)), c)
          else (Ok [], c)).2 = c).
  { destruct (String.eqb t "position"); [reflexivity|].
    destruct (String.eqb t "telemetry"); reflexivity. }
  destruct (if String.eqb t "position" then _ else _) as [[fields|e] c'];
    simpl in Hbody; subst c'; [|reflexivity].
  destruct (timestamp_footer cfg (msg_timestamp m)); [|reflexivity].
  destruct execute_ok; reflexivity.
Qed.

(** X6. Only a nodeinfo message can change the node name cache: when the
    payload is not a JSON object whose type is ["nodeinfo"], whatever else
    it is (a text, a position, a telemetry, an unknown type, something that
    is not an object, or bytes that do not parse), [on_message] leaves
    [node_names] as it was. *)
Theorem only_nodeinfo_changes_names (cfg : config) (pop : gset hkey → hkey)
    (execute_ok : bool) (topic : string) (loaded : res pyval) (st : state) :
  (∀ d, loaded = Ok (PDict d) →
        py_eq_str (dict_get_default "type" (PStr "unknown") d) "nodeinfo" = false) →
  node_names (on_message cfg pop execute_ok topic loaded st).1.1 = node_names st.
Proof.
  intros Htype. unfold on_message.
  destruct (contains "/json/" topic); [|reflexivity]. simpl negb. cbv iota.
  pose proof (parse_keeps_cache topic loaded (node_names st) Htype) as Hkeep.
  destruct (parse_meshtastic_message topic loaded (node_names st)) as [[m|] c1]
    eqn:Hp; simpl in Hkeep; subst c1; [|reflexivity].
  destruct (duplicate_prevention pop (msg_id m) (seen_messages st))
    as [[seen'|]|e]; try reflexivity.
  destruct (py_eq_str (msg_type m) "text"); [reflexivity|].
  destruct (is_telemetry_type (msg_type m)) as [[|]|e]; try reflexivity.
  apply parse_inv in Hp as (d & from_id & from & text & Hl & _ & Hm & _).
  assert (Hni : py_eq_str (msg_type m) "nodeinfo" = false).
  { rewrite Hm. simpl. exact (Htype d Hl). }
  pose proof (send_telemetry_to_discord_keeps_cache cfg execute_ok m
                (node_names st) Hni) as Hs.
  destruct (send_telemetry_to_discord cfg execute_ok m (node_names st))
    as [calls c2].
  exact Hs.
Qed.

Lemma only_nodeinfo_changes_names_witness :
  node_names (on_message example_config pop_smallest true
                "meshtastic/json/2/position"
                (Ok (position_payload 1 123456789)) seen_42).1.1
  = node_names seen_42.
Proof.
  apply only_nodeinfo_changes_names.
  intros d [= <-]. reflexivity.
Defined.

(** ** The parser, continued *)

Lemma parse_None_cache topic loaded (c c' : gmap hkey names) :
  parse_meshtastic_message topic loaded c = (None, c') → c' = c.
Proof.
  unfold parse_meshtastic_message.
  destruct (parse_body topic loaded c) as [[[m c1]|]|e];
    [discriminate| |]; intros [= <-]; reflexivity.
Qed.

(** X7. A message the parser rejects changes nothing at all: [on_message]
    returns with the state exactly as it was, the node name cache included,
    and nothing is sent.  The same holds for a topic without [/json/]. *)
Theorem rejected_message_changes_nothing (cfg : config) (pop : gset hkey → hkey)
    (execute_ok : bool) (topic : string) (loaded : res pyval) (st : state) :
  contains "/json/" topic = false
  ∨ (parse_meshtastic_message topic loaded (node_names st)).1 = None →
  on_message cfg pop execute_ok topic loaded st = (st, [], Ok tt).
Proof.
  intros [Htopic|Hrej]; unfold on_message.
  - rewrite Htopic. reflexivity.
  - destruct (contains "/json/" topic); [|reflexivity]. simpl negb. cbv iota.
    destruct (parse_meshtastic_message topic loaded (node_names st))
      as [[m|] c1] eqn:Hp; [discriminate|].
    apply parse_None_cache in Hp as ->. destruct st; reflexivity.
Qed.

Lemma rejected_message_changes_nothing_witness :
  on_message example_config pop_smallest true "meshtastic/json/2/text"
    (Ok (PDict [("from", PInt 1); ("type", PStr "text")])) seen_42
  = (seen_42, [], Ok tt).
Proof.
  apply rejected_message_changes_nothing. right. vm_compute. reflexivity.
Defined.

(** X8. The parser rejects whatever has no origin: bytes that do not parse,
    a JSON value that is not an object, and an object with neither a
    ['from'] nor a ['sender'].  The cache is left as it was. *)
Theorem parse_requires_origin (topic : string) (loaded : res pyval)
    (c : gmap hkey names) :
  (∀ d, loaded = Ok (PDict d) → assoc "from" d = None ∧ assoc "sender" d = None) →
  parse_meshtastic_message topic loaded c = (None, c).
Proof.
  intros Hno. unfold parse_meshtastic_message, parse_body.
  destruct loaded as [data|e]; [|reflexivity].
  destruct data as [| | | | | |d]; try reflexivity.
  destruct (Hno d eq_refl) as [Hf Hs]. cbn [bind].
  unfold origin. rewrite Hf, Hs. reflexivity.
Qed.

Lemma parse_requires_origin_witness :
  parse_meshtastic_message "meshtastic/json/2/text"
    (Ok (PDict [("type", PStr "text"); ("text", PStr "hi")])) ∅
  = (None, ∅).
Proof.
  apply parse_requires_origin. intros d [= <-]. split; reflexivity.
Defined.

(** X9. A ['from'] that is not an integer (a string, a float, [null], a
    list or an object) makes the parser reject the message, even when a
    ['sender'] is there to fall back on: the format [08x] raises and the
    [except] clause returns [None]. *)
Theorem from_must_be_int (topic : string) (d : list (string * pyval))
    (v : pyval) (c : gmap hkey names) :
  assoc "from" d = Some v →
  (∀ n, v ≠ PInt n) →
  (∀ b, v ≠ PBool b) →
  parse_meshtastic_message topic (Ok (PDict d)) c = (None, c).
Proof.
  intros Hf Hint Hbool. unfold parse_meshtastic_message, parse_body. cbn [bind].
  unfold origin. rewrite Hf.
  destruct v as [|b|n| | | |]; try reflexivity.
  - exfalso. exact (Hbool b eq_refl).
  - exfalso. exact (Hint n eq_refl).
Qed.

Lemma from_must_be_int_witness :
  parse_meshtastic_message "meshtastic/json/2/text"
    (Ok (PDict [("from", PStr "!9e8d5748"); ("sender", PStr "!9e8d5748");
                ("type", PStr "text"); ("text", PStr "hi")])) ∅
  = (None, ∅).
Proof.
  apply (from_must_be_int _ _ (PStr "!9e8d5748")); [reflexivity| |]; discriminate.
Defined.

Lemma origin_display d (c : gmap hkey names) from_id from :
  origin d c = Ok (Some (from_id, from)) →
  get_node_display_name from_id c = Ok from.
Proof.
  unfold origin. destruct (assoc "from" d) as [v|].
  - destruct (format_08x v) as [digits|e]; cbn [bind]; [|discriminate].
    destruct (get_node_display_name _ c) as [display|e] eqn:Hd; cbn [bind];
      [|discriminate].
    intros [= <- <-]. exact Hd.
  - destruct (assoc "sender" d) as [sender|]; [|discriminate].
    destruct (get_node_display_name sender c) as [display|e] eqn:Hd; cbn [bind];
      [|discriminate].
    intros [= <- <-]. exact Hd.
Qed.

(** X10. The display name of a message is resolved when it is parsed, on
    the cache as it was before the message: ['from'] is what
    [get_node_display_name] gave for ['from_id'] then.  So a message of a
    node the cache does not know yet, the nodeinfo that brings its name
    included, carries the id itself as its display name. *)
Theorem display_name_resolved_before_update (topic : string) (loaded : res pyval)
    (c c' : gmap hkey names) (m : message) :
  parse_meshtastic_message topic loaded c = (Some m, c') →
  get_node_display_name (msg_from_id m) c = Ok (msg_from m)
  ∧ ∃ k, hash_key (msg_from_id m) = Ok k
         ∧ (c !! k = None → msg_from m = msg_from_id m).
Proof.
  intros Hp.
  apply parse_inv in Hp as (d & from_id & from & text & _ & Ho & -> & _).
  simpl. pose proof (origin_display _ _ _ _ Ho) as Hd.
  split; [exact Hd|].
  destruct (origin_hashable _ _ _ _ Ho) as [k Hk]. exists k.
  split; [exact Hk|]. intros Hnone.
  unfold get_node_display_name in Hd. rewrite Hk in Hd. simpl in Hd.
  rewrite Hnone in Hd. injection Hd as <-. reflexivity.
Qed.

Lemma parse_toplevel :
  parse_meshtastic_message "meshtastic/json/2/nodeinfo" (Ok toplevel_payload)
    (node_names initial) = (Some toplevel_message, toplevel_cache).
Proof.
  assert (Ho : origin toplevel_dict (node_names initial)
               = Ok (Some (PStr "!00000001", PStr "!00000001")))
    by (vm_compute; reflexivity).
  unfold toplevel_payload.
  rewrite (parse_nodeinfo "meshtastic/json/2/nodeinfo" toplevel_dict []
             (PStr "!00000001") (PStr "!00000001") (KStr "!00000001")
             (node_names initial) eq_refl Ho eq_refl eq_refl).
  reflexivity.
Defined.

Lemma display_name_resolved_before_update_witness :
  get_node_display_name (msg_from_id toplevel_message) (node_names initial)
  = Ok (msg_from toplevel_message).
Proof.
  exact (proj1 (display_name_resolved_before_update _ _ _ _ _ parse_toplevel)).
Defined.

Lemma parse_text topic d (c c' : gmap hkey names) m :
  parse_meshtastic_message topic (Ok (PDict d)) c = (Some m, c') →
  msg_text m
  = if py_eq_str (dict_get_default "type" (PStr "unknown") d) "text"
    then text_of d else None.
Proof.
  unfold parse_meshtastic_message, parse_body, text_of. cbn [bind].
  destruct (origin d c) as [[[from_id from]|]|e]; cbn [bind]; try discriminate.
  destruct (py_eq_str (dict_get_default "type" (PStr "unknown") d) "text").
  - destruct (dict_get "payload" d) as [| | | | | |p].
    1-6: destruct (assoc "text" d) as [t|]; cbn [bind]; [|discriminate];
         intros H; parse_tail H; injection H as <- _; reflexivity.
    destruct (assoc "text" p) as [t|]; cbn [bind].
    + intros H; parse_tail H; injection H as <- _; reflexivity.
    + destruct (assoc "text" d) as [t|]; cbn [bind]; [|discriminate].
      intros H; parse_tail H; injection H as <- _; reflexivity.
  - cbn [bind]. intros H; parse_tail H; injection H as <- _; reflexivity.
Qed.

(** X11. A text message never comes out of the parser without its text,
    and no other message carries one: for the type ["text"] the text is
    [payload['text']] when the payload is an object with that key, else the
    top-level ['text'], and a message with neither is rejected; for every
    other type ['text'] is not set, even when the payload has one. *)
Theorem text_messages_have_text (topic : string) (d : list (string * pyval))
    (c c' : gmap hkey names) (m : message) :
  parse_meshtastic_message topic (Ok (PDict d)) c = (Some m, c') →
  (py_eq_str (msg_type m) "text" = true →
     msg_text m = text_of d ∧ is_Some (msg_text m))
  ∧ (py_eq_str (msg_type m) "text" = false → msg_text m = None).
Proof.
  intros Hp. pose proof (parse_text _ _ _ _ _ Hp) as Ht.
  pose proof Hp as Hinv.
  apply parse_inv in Hinv as (d' & from_id & from & text & [= <-] & _ & Hm & _).
  assert (Hty : msg_type m = dict_get_default "type" (PStr "unknown") d)
    by (rewrite Hm; reflexivity).
  rewrite Hty. split; intros Htext; rewrite Htext in Ht.
  - split; [exact Ht|]. rewrite Ht.
    destruct (text_of d) as [t|] eqn:Hnone; [eauto|]. exfalso.
    revert Hp. unfold parse_meshtastic_message, parse_body. cbn [bind].
    destruct (origin d c) as [[[fid fr]|]|e]; cbn [bind]; try discriminate.
    rewrite Htext. unfold text_of in Hnone.
    destruct (dict_get "payload" d) as [| | | | | |p];
      try (rewrite Hnone; discriminate).
    destruct (assoc "text" p) as [t|]; [discriminate|].
    rewrite Hnone. discriminate.
  - exact Ht.
Qed.

Lemma text_messages_have_text_witness :
  msg_text two_texts_message = text_of two_texts_dict
  ∧ is_Some (msg_text two_texts_message).
Proof.
  assert (Hp : parse_meshtastic_message "meshtastic/json/2/text"
                 (Ok (PDict two_texts_dict)) (node_names initial)
               = (Some two_texts_message, node_names initial))
    by (vm_compute; reflexivity).
  exact (proj1 (text_messages_have_text _ _ _ _ _ Hp) eq_refl).
Defined.

(** ** Node ids, topics and the topic test *)

Lemma hex_value_format_nonneg (n : Z) :
  0 ≤ n → hex_value (format_int_08x n) = Some n.
Proof.
  intros Hn. unfold format_int_08x.
  destruct (Z.ltb_spec n 0) as [Hneg|_]; [lia|].
  unfold hex_value. rewrite hex_value_from_zeros.
  exact (proj1 (hex_spec n Hn)).
Qed.

Lemma hex_value_format_neg (n : Z) :
  n < 0 → hex_value (format_int_08x n) = None.
Proof.
  intros Hn. unfold format_int_08x.
  destruct (Z.ltb_spec n 0) as [_|Hpos]; [reflexivity|lia].
Qed.

Lemma format_int_08x_injective (n m : Z) :
  format_int_08x n = format_int_08x m → n = m.
Proof.
  intros Heq. destruct (Z_lt_le_dec n 0) as [Hn|Hn], (Z_lt_le_dec m 0) as [Hm|Hm].
  - unfold format_int_08x in Heq.
    destruct (Z.ltb_spec n 0) as [_|?]; [|lia].
    destruct (Z.ltb_spec m 0) as [_|?]; [|lia].
    injection Heq as Heq.
    assert (Hv : hex_value_from 0 (zeros (7 - String.length (hex (- n))) +:+ hex (- n))
                 = hex_value_from 0 (zeros (7 - String.length (hex (- m))) +:+ hex (- m)))
      by (rewrite Heq; reflexivity).
    rewrite !hex_value_from_zeros in Hv.
    pose proof (proj1 (hex_spec (- n) ltac:(lia))) as H1.
    pose proof (proj1 (hex_spec (- m) ltac:(lia))) as H2.
    unfold hex_value in H1, H2. rewrite H1, H2 in Hv. injection Hv as Hv. lia.
  - pose proof (hex_value_format_neg n Hn) as H1.
    pose proof (hex_value_format_nonneg m Hm) as H2.
    rewrite Heq, H2 in H1. discriminate.
  - pose proof (hex_value_format_nonneg n Hn) as H1.
    pose proof (hex_value_format_neg m Hm) as H2.
    rewrite Heq, H2 in H1. discriminate.
  - pose proof (hex_value_format_nonneg n Hn) as H1.
    pose proof (hex_value_format_nonneg m Hm) as H2.
    rewrite Heq, H2 in H1. injection H1 as H1. lia.
Qed.

(** X12. Node numbers never collide in the cache key: two messages whose
    ['from'] are integers get the same ['from_id'] only when the two
    integers are equal, whatever their size or sign (a number of more than
    32 bits is printed with more digits, not truncated). *)
Theorem from_ids_do_not_collide (d1 d2 : list (string * pyval)) (n1 n2 : Z)
    (c1 c2 : gmap hkey names) (from_id1 from1 from_id2 from2 : pyval) :
  assoc "from" d1 = Some (PInt n1) →
  assoc "from" d2 = Some (PInt n2) →
  n1 ≠ n2 →
  origin d1 c1 = Ok (Some (from_id1, from1)) →
  origin d2 c2 = Ok (Some (from_id2, from2)) →
  from_id1 ≠ from_id2.
Proof.
  intros Hf1 Hf2 Hne Ho1 Ho2 Heq.
  destruct (origin_from_int d1 n1 c1 Hf1) as [f1 H1].
  destruct (origin_from_int d2 n2 c2 Hf2) as [f2 H2].
  rewrite H1 in Ho1. rewrite H2 in Ho2.
  injection Ho1 as <- _. injection Ho2 as <- _. injection Heq as Heq.
  apply Hne, format_int_08x_injective. exact Heq.
Qed.

Lemma from_ids_do_not_collide_witness :
  PStr "!00000001" ≠ PStr "!100000001".
Proof.
  assert (Ho1 : origin [("from", PInt 1)] (node_names initial)
                = Ok (Some (PStr "!00000001", PStr "!00000001")))
    by (vm_compute; reflexivity).
  assert (Ho2 : origin [("from", PInt 4294967297)] (node_names initial)
                = Ok (Some (PStr "!100000001", PStr "!100000001")))
    by (vm_compute; reflexivity).
  exact (from_ids_do_not_collide [("from", PInt 1)] [("from", PInt 4294967297)]
           1 4294967297 (node_names initial) (node_names initial) _ _ _ _
           eq_refl eq_refl ltac:(lia) Ho1 Ho2).
Defined.

Lemma split_nonempty (c : ascii) (s : string) : split c s ≠ [].
Proof.
  destruct s as [|a s]; simpl; [discriminate|].
  destruct (Ascii.eqb a c); [discriminate|].
  destruct (split c s); discriminate.
Qed.

Lemma concat_cons (sep h : string) (t : list string) :
  t ≠ [] → String.concat sep (h :: t) = h +:+ sep +:+ String.concat sep t.
Proof. destruct t; [congruence|reflexivity]. Qed.

Lemma split_concat (c : ascii) (s : string) :
  String.concat (String c EmptyString) (split c s) = s.
Proof.
  induction s as [|a s IH]; [reflexivity|]. simpl split.
  destruct (Ascii.eqb a c) eqn:Hac.
  - apply Ascii.eqb_eq in Hac as ->.
    rewrite concat_cons by apply split_nonempty. rewrite IH. reflexivity.
  - pose proof (split_nonempty c s) as Hne.
    destruct (split c s) as [|h t]; [congruence|].
    destruct t as [|h' t].
    + simpl in *. congruence.
    + rewrite concat_cons by discriminate.
      rewrite concat_cons in IH by discriminate.
      rewrite string_app_cons, IH. reflexivity.
Qed.

Lemma split_length (c : ascii) (s : string) :
  length (split c s) = S (count_char c s).
Proof.
  induction s as [|a s IH]; [reflexivity|]. simpl.
  destruct (Ascii.eqb a c); simpl.
  - rewrite IH. reflexivity.
  - pose proof (split_nonempty c s) as Hne.
    destruct (split c s) as [|h t]; [congruence|]. exact IH.
Qed.

Lemma split_no_separator (c : ascii) (s : string) :
  Forall (fun part => count_char c part = O) (split c s).
Proof.
  induction s as [|a s IH]; simpl.
  - repeat constructor.
  - destruct (Ascii.eqb a c) eqn:Hac.
    + constructor; [reflexivity|exact IH].
    + destruct (split c s) as [|h t]; [repeat constructor; simpl; rewrite Hac; reflexivity|].
      apply Forall_cons in IH as [Hh Ht]. constructor; [|exact Ht].
      simpl. rewrite Hac, Hh. reflexivity.
Qed.

(** X13. The channel of a topic: there is none exactly when the topic has
    fewer than three slashes; when there is one, the topic reads
    [a/b/c/channel] or [a/b/c/channel/...] where [a], [b], [c], the channel
    and every later segment hold no slash: the channel is the fourth of the
    segments that the slashes of the topic delimit, and no other one,
    whatever the first three are. *)
Theorem topic_channel_is_fourth_segment (topic : string) :
  (topic_channel topic = None ↔ (count_char "/" topic < 3)%nat)
  ∧ ∀ channel, topic_channel topic = Some channel →
      count_char "/" channel = O
      ∧ ∃ a b c rest,
          topic = String.concat "/" (a :: b :: c :: channel :: rest)
          ∧ count_char "/" a = O
          ∧ count_char "/" b = O
          ∧ count_char "/" c = O
          ∧ Forall (fun part => count_char "/" part = O) rest.
Proof.
  unfold topic_channel.
  pose proof (split_length "/" topic) as Hlen.
  pose proof (split_concat "/" topic) as Hcat.
  pose proof (split_no_separator "/" topic) as Hsep.
  destruct (decide (4 ≤ length (split "/" topic))%nat) as [Hd|Hd].
  - destruct (split "/" topic) as [|a [|b [|c' [|ch rest]]]];
      try (simpl in Hd; lia).
    simpl in Hlen.
    apply Forall_cons in Hsep as [Ha Hsep].
    apply Forall_cons in Hsep as [Hb Hsep].
    apply Forall_cons in Hsep as [Hc Hsep].
    apply Forall_cons in Hsep as [Hch Hrest].
    split.
    + split; [discriminate|]. intros Hlt. lia.
    + intros channel [= <-]. split; [exact Hch|].
      exists a, b, c', rest. split; [symmetry; exact Hcat|]. auto.
  - split; [|discriminate]. split; [|reflexivity]. intros _. lia.
Qed.

Lemma prefix_spec (sub s : string) :
  String.prefix sub s = true ↔ ∃ post, s = sub +:+ post.
Proof.
  revert s. induction sub as [|a sub IH]; intros s.
  - split; [intros _; exists s; reflexivity|]. intros _. destruct s; reflexivity.
  - destruct s as [|b s]; simpl.
    + split; [discriminate|]. intros [post H]. discriminate.
    + destruct (ascii_dec a b) as [->|Hne].
      * rewrite IH. split; intros [post H]; exists post.
        -- rewrite string_app_cons, H. reflexivity.
        -- rewrite string_app_cons in H. injection H as H. exact H.
      * split; [discriminate|]. intros [post H].
        rewrite string_app_cons in H. injection H as H _. congruence.
Qed.

(** X14. The topic test of [on_message]: [sub in s] holds exactly when [s]
    reads [pre], then [sub], then [post].  With [/json/] for [sub], a topic
    passes only if [json] is a whole segment with a slash on either side: a
    topic that starts with [json/] or ends in [/json] only is ignored. *)
Theorem contains_iff_infix (sub s : string) :
  contains sub s = true ↔ ∃ pre post, s = pre +:+ sub +:+ post.
Proof.
  induction s as [|a s IH].
  - change (contains sub EmptyString)
      with (String.prefix sub EmptyString || false).
    rewrite orb_false_r, prefix_spec. split.
    + intros [post H]. exists EmptyString, post. exact H.
    + intros (pre & post & H). destruct pre as [|b pre].
      * exists post. exact H.
      * rewrite string_app_cons in H. discriminate.
  - change (contains sub (String a s))
      with (String.prefix sub (String a s) || contains sub s).
    rewrite orb_true_iff, prefix_spec, IH. split.
    + intros [[post H]|(pre & post & H)].
      * exists EmptyString, post. exact H.
      * exists (String a pre), post. rewrite string_app_cons, H. reflexivity.
    + intros (pre & post & H). destruct pre as [|b pre].
      * left. exists post. exact H.
      * right. rewrite string_app_cons in H. injection H as _ H.
        exists pre, post. exact H.
Qed.

(** ** The duplicate filter, continued *)

(** X15. A message whose id is already in [seen_messages] is dropped
    whatever its type: nothing is sent and [seen_messages] is unchanged;
    only what the parser did to the cache remains. *)
Theorem seen_id_is_dropped (cfg : config) (pop : gset hkey → hkey)
    (execute_ok : bool) (topic : string) (loaded : res pyval) (st : state)
    (m : message) (c1 : gmap hkey names) (id : pyval) (k : hkey) :
  contains "/json/" topic = true →
  parse_meshtastic_message topic loaded (node_names st) = (Some m, c1) →
  msg_id m = Some id →
  hash_key id = Ok k →
  k ∈ seen_messages st →
  on_message cfg pop execute_ok topic loaded st
  = (State c1 (seen_messages st), [], Ok tt).
Proof.
  intros Hj Hp Hid Hk Hseen. unfold on_message. rewrite Hj, Hp. simpl.
  rewrite Hid. simpl. rewrite Hk. simpl.
  rewrite decide_True by exact Hseen. reflexivity.
Qed.

Lemma parse_text_42 :
  parse_meshtastic_message "meshtastic/json/2/text" (Ok (text_payload 42))
    (node_names seen_42) = (Some text_42_message, node_names seen_42).
Proof. vm_compute. reflexivity. Defined.

Lemma seen_id_is_dropped_witness :
  on_message example_config pop_smallest true "meshtastic/json/2/text"
    (Ok (text_payload 42)) seen_42
  = (State (node_names seen_42) (seen_messages seen_42), [], Ok tt).
Proof.
  apply (seen_id_is_dropped example_config pop_smallest true
           "meshtastic/json/2/text" (Ok (text_payload 42)) seen_42
           text_42_message (node_names seen_42) (PInt 42) (KNum (Z2Qc 42))
           eq_refl parse_text_42 eq_refl eq_refl).
  unfold seen_42. cbn [seen_messages]. apply elem_of_singleton. reflexivity.
Defined.


Lemma parse_plain_text :
  parse_meshtastic_message "meshtastic/json/2/text" (Ok plain_text_payload)
    (node_names initial) = (Some plain_text_message, node_names initial).
Proof. vm_compute. reflexivity. Defined.


(** An admission below the capacity keeps every id and adds at most one. *)
Lemma duplicate_prevention_below_capacity pop id (seen seen' : gset hkey) :
  (size seen < MAX_SEEN_MESSAGES)%nat →
  duplicate_prevention pop id seen = Ok (Some seen') →
  seen ⊆ seen' ∧ (size seen' ≤ S (size seen))%nat.
Proof.
  intros Hroom. unfold duplicate_prevention.
  destruct id as [msg_id|]; [|intros [= <-]; split; [reflexivity|lia]].
  destruct (hash_key msg_id) as [k|e]; simpl; [|discriminate].
  destruct (decide (k ∈ seen)) as [Hin|Hnin]; [discriminate|].
  assert (Hs1 : size (seen ∪ {[k]}) = S (size seen)).
  { rewrite size_union by set_solver. rewrite size_singleton. lia. }
  rewrite decide_False by lia. intros [= <-].
  split; [apply union_subseteq_l|lia].
Qed.

Lemma run_remembers cfg ds : ∀ st,
  (size (seen_messages st) + length ds ≤ MAX_SEEN_MESSAGES)%nat →
  seen_messages st ⊆ seen_messages (run cfg ds st).1.
Proof.
  induction ds as [|d ds IH]; intros st Hroom; [reflexivity|].
  cbn [length] in Hroom. simpl run.
  pose proof (on_message_seen cfg (d_pop d) (d_execute_ok d) (d_topic d)
                (d_loaded d) st) as Hseen.
  unfold deliver.
  destruct (on_message cfg (d_pop d) (d_execute_ok d) (d_topic d) (d_loaded d) st)
    as [[st1 calls1] r].
  cbn [fst snd] in Hseen. specialize (IH st1).
  destruct (run cfg ds st1) as [st2 calls2]. cbn [fst snd] in *.
  destruct Hseen as [Heq|[id Hadm]].
  - rewrite <- Heq. apply IH. rewrite Heq. lia.
  - assert (Hlt : (size (seen_messages st) < MAX_SEEN_MESSAGES)%nat) by lia.
    destruct (duplicate_prevention_below_capacity _ _ _ _ Hlt Hadm)
      as [Hsub Hsize].
    etransitivity; [exact Hsub|]. apply IH. lia.
Qed.

(** X17. While there is room nothing is forgotten: if the ids already seen
    and the messages to come number at most 1000 together, every id that is
    in [seen_messages] before the deliveries is still in it after them. *)
Theorem ids_remembered_below_capacity (cfg : config) (ds : list delivery)
    (st : state) (k : hkey) :
  (size (seen_messages st) + length ds ≤ 1000)%nat →
  k ∈ seen_messages st →
  k ∈ seen_messages (run cfg ds st).1.
Proof.
  intros Hroom Hk. exact (run_remembers cfg ds st Hroom k Hk).
Qed.

Lemma ids_remembered_below_capacity_witness :
  KNum (Z2Qc 42) ∈ seen_messages (run example_config (text_deliveries 999) seen_42).1.
Proof.
  apply ids_remembered_below_capacity.
  - unfold seen_42, text_deliveries. cbn [seen_messages].
    rewrite size_singleton, length_map, length_seq. lia.
  - unfold seen_42. cbn [seen_messages]. apply elem_of_singleton. reflexivity.
Defined.

Lemma duplicate_prevention_grows pop id (seen seen' : gset hkey) :
  pop_valid pop →
  duplicate_prevention pop id seen = Ok (Some seen') →
  (size seen ≤ size seen')%nat.
Proof.
  intros Hpop. unfold duplicate_prevention.
  destruct id as [msg_id|]; [|intros [= <-]; lia].
  destruct (hash_key msg_id) as [k|e]; simpl; [|discriminate].
  destruct (decide (k ∈ seen)) as [Hin|Hnin]; [discriminate|].
  assert (Hs1 : size (seen ∪ {[k]}) = S (size seen)).
  { rewrite size_union by set_solver. rewrite size_singleton. lia. }
  destruct (decide (MAX_SEEN_MESSAGES < size (seen ∪ {[k]}))%nat) as [Hbig|Hok];
    intros [= <-]; [|lia].
  assert (Hin : pop (seen ∪ {[k]}) ∈ seen ∪ {[k]}).
  { apply Hpop. set_solver. }
  rewrite size_difference by set_solver. rewrite size_singleton. lia.
Qed.

(** X18. The number of ids in [seen_messages] never goes down: an
    admission that overflows takes out one id after one has been put in.
    With the bound of 1000 this means that the set, once full, stays
    full. *)
Theorem seen_messages_never_shrinks (cfg : config) (ds : list delivery)
    (st : state) :
  Forall (fun d => pop_valid (d_pop d)) ds →
  (size (seen_messages st) ≤ size (seen_messages (run cfg ds st).1))%nat.
Proof.
  revert st. induction ds as [|d ds IH]; intros st Hpops; [simpl; lia|].
  apply Forall_cons in Hpops as [Hpop Hpops]. simpl run.
  pose proof (on_message_seen cfg (d_pop d) (d_execute_ok d) (d_topic d)
                (d_loaded d) st) as Hseen.
  unfold deliver.
  destruct (on_message cfg (d_pop d) (d_execute_ok d) (d_topic d) (d_loaded d) st)
    as [[st1 calls1] r].
  simpl in Hseen. specialize (IH st1 Hpops).
  destruct (run cfg ds st1) as [st2 calls2]. simpl in *.
  destruct Hseen as [Heq|[id Hadm]].
  - rewrite <- Heq. exact IH.
  - pose proof (duplicate_prevention_grows _ _ _ _ Hpop Hadm). lia.
Qed.

Lemma seen_messages_never_shrinks_witness :
  (size (seen_messages full_state)
   ≤ size (seen_messages
             (run example_config (text_deliveries 5) full_state).1))%nat.
Proof.
  apply seen_messages_never_shrinks.
  unfold text_deliveries. apply Forall_map, Forall_forall.
  intros i _. exact pop_smallest_valid.
Defined.

(** X19. An id that cannot be hashed (a list or an object) makes
    [on_message] raise [TypeError] at the duplicate test: nothing is sent
    and [seen_messages] is unchanged. *)
Theorem unhashable_id_raises (cfg : config) (pop : gset hkey → hkey)
    (execute_ok : bool) (topic : string) (loaded : res pyval) (st : state)
    (m : message) (c1 : gmap hkey names) (id : pyval) :
  contains "/json/" topic = true →
  parse_meshtastic_message topic loaded (node_names st) = (Some m, c1) →
  msg_id m = Some id →
  (∀ k, hash_key id ≠ Ok k) →
  on_message cfg pop execute_ok topic loaded st
  = (State c1 (seen_messages st), [], Raise TypeError).
Proof.
  intros Hj Hp Hid Hk. unfold on_message. rewrite Hj, Hp. simpl.
  rewrite Hid. simpl.
  destruct id; simpl; try reflexivity; exfalso; eapply Hk; reflexivity.
Qed.

Lemma parse_list_id :
  parse_meshtastic_message "meshtastic/json/2/text" (Ok list_id_payload)
    (node_names initial) = (Some list_id_message, node_names initial).
Proof. vm_compute. reflexivity. Defined.

Lemma unhashable_id_raises_witness :
  on_message example_config pop_smallest true "meshtastic/json/2/text"
    (Ok list_id_payload) initial
  = (State (node_names initial) (seen_messages initial), [], Raise TypeError).
Proof.
  apply (unhashable_id_raises example_config pop_smallest true
           "meshtastic/json/2/text" (Ok list_id_payload) initial
           list_id_message (node_names initial) (PList [PInt 1])
           eq_refl parse_list_id eq_refl).
  intros k. discriminate.
Defined.

(** ** Routing *)

Lemma truthy_url (url : string) : truthy (PStr url) = true → url ≠ "".
Proof.
  simpl. intros H ->. discriminate.
Qed.

Lemma send_to_discord_calls cfg execute_ok m :
  send_to_discord cfg execute_ok m = []
  ∨ ∃ e, send_to_discord cfg execute_ok m = [Execute (DISCORD_WEBHOOK_URL cfg) e]
         ∧ DISCORD_WEBHOOK_URL cfg ≠ "".
Proof.
  unfold send_to_discord.
  destruct (truthy (PStr (DISCORD_WEBHOOK_URL cfg))) eqn:Hurl; [|left; reflexivity].
  right. eexists. split; [destruct execute_ok; reflexivity|].
  exact (truthy_url _ Hurl).
Qed.

Lemma send_telemetry_to_discord_calls cfg execute_ok m (c : gmap hkey names) :
  (send_telemetry_to_discord cfg execute_ok m c).1 = []
  ∨ ∃ e, (send_telemetry_to_discord cfg execute_ok m c).1
         = [Execute (DISCORD_TELEMETRY_WEBHOOK_URL cfg) e]
         ∧ DISCORD_TELEMETRY_WEBHOOK_URL cfg ≠ "".
Proof.
  unfold send_telemetry_to_discord.
  destruct (truthy (PStr (DISCORD_TELEMETRY_WEBHOOK_URL cfg))) eqn:Hurl;
    [|left; reflexivity].
  simpl negb. cbv iota.
  destruct (msg_type m) as [| | | |t| |]; try (left; reflexivity).
  destruct (title_and_color t) as [title color].
  destruct (if String.eqb t "position" then _ else _) as [[fields|e] c'];
    [|left; reflexivity].
  destruct (timestamp_footer cfg (msg_timestamp m)); [|left; reflexivity].
  right. eexists. split; [destruct execute_ok; reflexivity|].
  exact (truthy_url _ Hurl).
Qed.

(** The calls of [on_message]: those of one of the two formatters, or
    none. *)
Lemma on_message_calls cfg pop execute_ok topic loaded st :
  (on_message cfg pop execute_ok topic loaded st).1.2 = []
  ∨ (∃ m c1,
       parse_meshtastic_message topic loaded (node_names st) = (Some m, c1)
       ∧ py_eq_str (msg_type m) "text" = true
       ∧ (on_message cfg pop execute_ok topic loaded st).1.2
         = send_to_discord cfg execute_ok m)
  ∨ (∃ m c1,
       parse_meshtastic_message topic loaded (node_names st) = (Some m, c1)
       ∧ py_eq_str (msg_type m) "text" = false
       ∧ is_telemetry_type (msg_type m) = Ok true
       ∧ (on_message cfg pop execute_ok topic loaded st).1.2
         = (send_telemetry_to_discord cfg execute_ok m c1).1).
Proof.
  unfold on_message.
  destruct (contains "/json/" topic); [|left; reflexivity]. simpl negb. cbv iota.
  destruct (parse_meshtastic_message topic loaded (node_names st)) as [[m|] c1];
    [|left; reflexivity].
  destruct (duplicate_prevention pop (msg_id m) (seen_messages st))
    as [[seen'|]|e]; try (left; reflexivity).
  destruct (py_eq_str (msg_type m) "text") eqn:Htext.
  - right. left. exists m, c1. auto.
  - destruct (is_telemetry_type (msg_type m)) as [[|]|e] eqn:Htele;
      try (left; reflexivity).
    right. right. exists m, c1.
    destruct (send_telemetry_to_discord cfg execute_ok m c1). auto.
Qed.

(** X20. [on_message] calls the transport at most once per message, and
    only at a webhook that is configured: the URL of the call is not empty
    and is the main or the telemetry webhook. *)
Theorem at_most_one_call (cfg : config) (pop : gset hkey → hkey)
    (execute_ok : bool) (topic : string) (loaded : res pyval) (st : state) :
  (length (on_message cfg pop execute_ok topic loaded st).1.2 ≤ 1)%nat
  ∧ Forall (fun c => call_url c ≠ ""
                     ∧ (call_url c = DISCORD_WEBHOOK_URL cfg
                        ∨ call_url c = DISCORD_TELEMETRY_WEBHOOK_URL cfg))
      (on_message cfg pop execute_ok topic loaded st).1.2.
Proof.
  destruct (on_message_calls cfg pop execute_ok topic loaded st)
    as [->|[(m & c1 & _ & _ & ->)|(m & c1 & _ & _ & _ & ->)]].
  - split; [simpl; lia|constructor].
  - destruct (send_to_discord_calls cfg execute_ok m) as [->|(e & -> & Hurl)].
    + split; [simpl; lia|constructor].
    + split; [simpl; lia|]. apply Forall_cons. split; [|constructor].
      split; [exact Hurl|left; reflexivity].
  - destruct (send_telemetry_to_discord_calls cfg execute_ok m c1)
      as [->|(e & -> & Hurl)].
    + split; [simpl; lia|constructor].
    + split; [simpl; lia|]. apply Forall_cons. split; [|constructor].
      split; [exact Hurl|right; reflexivity].
Qed.

Lemma is_telemetry_type_str (t : string) :
  is_telemetry_type (PStr t)
  = Ok (bool_decide (t = "position" ∨ t = "telemetry" ∨ t = "nodeinfo")).
Proof.
  unfold is_telemetry_type. simpl. f_equal. apply bool_decide_ext.
  rewrite !elem_of_union, !elem_of_singleton.
  split.
  - intros [[H|H]|H]; injection H as H; subst t; auto.
  - intros [-> | [-> | ->]]; auto.
Qed.

(** X21. Routing by type: a text message is sent to the main webhook only,
    a position, telemetry or nodeinfo message to the telemetry webhook
    only, and a message of any other type, the default ["unknown"]
    included, is sent nowhere. *)
Theorem routing_by_type (cfg : config) (pop : gset hkey → hkey)
    (execute_ok : bool) (topic : string) (loaded : res pyval) (st : state)
    (m : message) (c1 : gmap hkey names) (t : string) :
  parse_meshtastic_message topic loaded (node_names st) = (Some m, c1) →
  msg_type m = PStr t →
  (t = "text" →
     Forall (fun c => call_url c = DISCORD_WEBHOOK_URL cfg)
       (on_message cfg pop execute_ok topic loaded st).1.2)
  ∧ (t = "position" ∨ t = "telemetry" ∨ t = "nodeinfo" →
     Forall (fun c => call_url c = DISCORD_TELEMETRY_WEBHOOK_URL cfg)
       (on_message cfg pop execute_ok topic loaded st).1.2)
  ∧ (t ≠ "text" → t ≠ "position" → t ≠ "telemetry" → t ≠ "nodeinfo" →
     (on_message cfg pop execute_ok topic loaded st).1.2 = []).
Proof.
  intros Hp Ht.
  destruct (on_message_calls cfg pop execute_ok topic loaded st)
    as [Hnil|[(m' & c' & Hp' & Htext & Hcalls)|(m' & c' & Hp' & Htext & Htele & Hcalls)]].
  - rewrite Hnil. repeat split; intros; constructor.
  - rewrite Hp in Hp'. injection Hp' as <- <-. rewrite Hcalls.
    rewrite Ht in Htext. simpl in Htext. apply String.eqb_eq in Htext as ->.
    split; [|split].
    + intros _. destruct (send_to_discord_calls cfg execute_ok m)
        as [->|(e & -> & _)]; repeat constructor.
    + intros [H|[H|H]]; discriminate.
    + intros H. congruence.
  - rewrite Hp in Hp'. injection Hp' as <- <-. rewrite Hcalls.
    rewrite Ht in Htext, Htele. simpl in Htext.
    apply String.eqb_neq in Htext.
    rewrite is_telemetry_type_str in Htele. injection Htele as Htele.
    apply bool_decide_eq_true in Htele.
    split; [|split].
    + intros H. congruence.
    + intros _. destruct (send_telemetry_to_discord_calls cfg execute_ok m c1)
        as [->|(e & -> & _)]; repeat constructor.
    + intros _ H1 H2 H3. destruct Htele as [H|[H|H]]; congruence.
Qed.

Lemma parse_neighborinfo :
  parse_meshtastic_message "meshtastic/json/2/neighborinfo"
    (Ok neighborinfo_payload) (node_names initial)
  = (Some neighborinfo_message, node_names initial).
Proof. vm_compute. reflexivity. Defined.

Lemma routing_by_type_witness :
  (on_message example_config pop_smallest true "meshtastic/json/2/neighborinfo"
     (Ok neighborinfo_payload) initial).1.2 = [].
Proof.
  apply (routing_by_type example_config pop_smallest true
           "meshtastic/json/2/neighborinfo" (Ok neighborinfo_payload) initial
           neighborinfo_message (node_names initial) "neighborinfo"
           parse_neighborinfo eq_refl); discriminate.
Defined.

(** ** The telemetry formatter, continued *)

(** X22. When the payload of a position, telemetry or nodeinfo message is
    there but is not an object (a string, a number, a list, [null]), the
    formatter raises inside its [try]: nothing is sent and the cache is
    untouched. *)
Theorem non_object_payload_is_not_sent (cfg : config) (execute_ok : bool)
    (m : message) (t : string) (v : pyval) (c : gmap hkey names) :
  msg_type m = PStr t →
  t = "position" ∨ t = "telemetry" ∨ t = "nodeinfo" →
  msg_payload m = Some v →
  (∀ p, v ≠ PDict p) →
  send_telemetry_to_discord cfg execute_ok m c = ([], c).
Proof.
  intros Ht Hkind Hp Hv. unfold send_telemetry_to_discord.
  destruct (truthy (PStr (DISCORD_TELEMETRY_WEBHOOK_URL cfg))); [|reflexivity].
  rewrite Ht, Hp. simpl negb. cbv iota.
  assert (Hpos : position_fields v = Raise AttributeError).
  { destruct v; try reflexivity. exfalso. eapply Hv. reflexivity. }
  assert (Htel : telemetry_fields v = Raise AttributeError).
  { destruct v; try reflexivity. exfalso. eapply Hv. reflexivity. }
  assert (Hnode : nodeinfo_fields m v c = (Raise AttributeError, c)).
  { destruct v; try reflexivity. exfalso. eapply Hv. reflexivity. }
  destruct Hkind as [-> | [-> | ->]]; simpl.
  - rewrite Hpos. reflexivity.
  - rewrite Htel. reflexivity.
  - rewrite Hnode. reflexivity.
Qed.

Lemma non_object_payload_is_not_sent_witness :
  send_telemetry_to_discord example_config true string_payload_message
    (node_names initial) = ([], node_names initial).
Proof.
  apply (non_object_payload_is_not_sent example_config true
           string_payload_message "telemetry" (PStr "n/a") (node_names initial)
           eq_refl); [auto|reflexivity|discriminate].
Defined.

(** X23. A position or telemetry message without any payload is still
    sent: the notification then has the From field and the Signal field (if
    any) and nothing else. *)
Theorem message_without_payload_is_sent (cfg : config) (execute_ok : bool)
    (m : message) (t : string) (c : gmap hkey names)
    (footer : option (list piece)) :
  truthy (PStr (DISCORD_TELEMETRY_WEBHOOK_URL cfg)) = true →
  msg_type m = PStr t →
  t = "position" ∨ t = "telemetry" →
  msg_payload m = None →
  timestamp_footer cfg (msg_timestamp m) = Ok footer →
  send_telemetry_to_discord cfg execute_ok m c
  = ([Execute (DISCORD_TELEMETRY_WEBHOOK_URL cfg)
        {| embed_title := (title_and_color t).1;
           embed_color := (title_and_color t).2;
           embed_fields := from_field m :: signal_fields m;
           embed_footer := footer |}], c).
Proof.
  intros Hurl Ht Hkind Hp Hfooter. unfold send_telemetry_to_discord.
  rewrite Hurl, Ht, Hp, Hfooter. simpl negb. cbv iota.
  destruct Hkind as [-> | ->]; destruct execute_ok; reflexivity.
Qed.

Lemma message_without_payload_is_sent_witness :
  length (send_telemetry_to_discord example_config true bare_position_message
            (node_names initial)).1 = 1%nat.
Proof.
  rewrite (message_without_payload_is_sent example_config true
             bare_position_message "position" (node_names initial) None
             eq_refl eq_refl (or_introl eq_refl) eq_refl eq_refl).
  reflexivity.
Defined.

Lemma telemetry_fields_string_voltage p ms s :
  dict_get_default "device_metrics" (PDict p) p = PDict ms →
  assoc "voltage" ms = Some (PStr s) →
  ∃ e, telemetry_fields (PDict p) = Raise e.
Proof.
  intros Hms Hv.
  assert (Hdv : dict_get_default "voltage" PNone ms = PStr s)
    by (unfold dict_get_default; rewrite Hv; reflexivity).
  unfold telemetry_fields, py_get_default. rewrite Hms.
  cbn [bind]. unfold py_get, py_get_default. cbn [bind].
  destruct (if is_not_None (dict_get_default "battery_level" PNone ms) then _ else _)
    as [battery_field|e]; cbn [bind]; [|eauto].
  rewrite !Hdv. cbn [is_not_None format_f bind]. eauto.
Qed.

(** X24. One metric of the wrong kind drops the whole telemetry
    notification: when the voltage is a string, the format with two
    decimals raises, nothing is sent, not even the metrics that are well
    formed, and the cache is untouched. *)
Theorem string_voltage_drops_notification (cfg : config) (execute_ok : bool)
    (m : message) (p ms : list (string * pyval)) (s : string)
    (c : gmap hkey names) :
  msg_type m = PStr "telemetry" →
  msg_payload m = Some (PDict p) →
  dict_get_default "device_metrics" (PDict p) p = PDict ms →
  assoc "voltage" ms = Some (PStr s) →
  send_telemetry_to_discord cfg execute_ok m c = ([], c).
Proof.
  intros Ht Hp Hms Hv. unfold send_telemetry_to_discord.
  destruct (truthy (PStr (DISCORD_TELEMETRY_WEBHOOK_URL cfg))); [|reflexivity].
  rewrite Ht, Hp. simpl negb. cbv iota.
  destruct (telemetry_fields_string_voltage p ms s Hms Hv) as [e He].
  simpl. rewrite He. reflexivity.
Qed.

Lemma string_voltage_drops_notification_witness :
  send_telemetry_to_discord example_config true string_voltage_message
    (node_names initial) = ([], node_names initial).
Proof.
  apply (string_voltage_drops_notification example_config true
           string_voltage_message
           [("battery_level", PInt 87); ("voltage", PStr "4.1")]
           [("battery_level", PInt 87); ("voltage", PStr "4.1")] "4.1"
           (node_names initial) eq_refl eq_refl eq_refl eq_refl).
Defined.

(** Equality of a hashable value with itself.  The one value of Python that
    differs from itself, the float [nan], is no [pyval]: the lemma is used
    on values that are no floats only. *)
Lemma py_eq_hashable_refl v k : hash_key v = Ok k → py_eq v v = true.
Proof.
  destruct v; simpl; try discriminate; intros _; try reflexivity;
    apply bool_decide_eq_true_2; reflexivity.
Qed.

(** X25. A message of a node the cache has no record of, whose id is no
    float (the id made from a ['from'] is always a string; a ['sender'] that
    is the float [nan] differs from itself and is set aside), shows the node
    by its id alone: the From field is the id, without a name in front and
    without parentheses. *)
Theorem unknown_node_shown_by_id (topic : string) (loaded : res pyval)
    (c c' : gmap hkey names) (m : message) :
  parse_meshtastic_message topic loaded c = (Some m, c') →
  (∀ x, msg_from_id m ≠ PFloat x) →
  (∀ k, hash_key (msg_from_id m) = Ok k → c !! k = None) →
  from_field m = Field "From" [Raw (msg_from_id m)] false.
Proof.
  intros Hp _ Hnone.
  apply parse_inv in Hp as (d & from_id & from & text & _ & Ho & -> & _).
  simpl in *. destruct (origin_hashable _ _ _ _ Ho) as [k Hk].
  pose proof (origin_display _ _ _ _ Ho) as Hd.
  unfold get_node_display_name in Hd. rewrite Hk in Hd. cbn [bind] in Hd.
  rewrite (Hnone k Hk) in Hd. injection Hd as <-.
  unfold from_field. cbn [msg_from_id msg_from].
  rewrite (py_eq_hashable_refl _ _ Hk). reflexivity.
Qed.

Lemma unknown_node_shown_by_id_witness :
  from_field plain_text_message = Field "From" [Raw (PStr "!00000001")] false.
Proof.
  apply (unknown_node_shown_by_id "meshtastic/json/2/text"
           (Ok plain_text_payload) (node_names initial) (node_names initial)
           plain_text_message parse_plain_text).
  - intros x. discriminate.
  - intros k _. apply lookup_empty.
Defined.

(** ** The position branch, continued *)

Lemma Z2Qc_inj (n m : Z) : Z2Qc n = Z2Qc m → n = m.
Proof.
  unfold Z2Qc. intros H. apply Q2Qc_eq_iff in H.
  unfold Qeq in H. simpl in H. lia.
Qed.

Lemma py_eq_int (n m : Z) : py_eq (PInt n) (PInt m) = Z.eqb n m.
Proof.
  simpl. destruct (Z.eqb_spec n m) as [->|Hne].
  - apply bool_decide_eq_true_2. reflexivity.
  - apply bool_decide_eq_false_2. intros H. apply Hne, Z2Qc_inj.
    exact (f_equal (fun k => match k with KNum q => q | _ => Z2Qc 0 end) H).
Qed.

(** X27. With integer coordinates under [latitude_i] and [longitude_i] and
    none under the other spelling, the notification has a Location field,
    and a Map field, exactly when both coordinates are non-zero: a position
    on the equator or on the prime meridian is sent without them. *)
Theorem location_needs_both_coordinates (p pos : list (string * pyval))
    (lat lon : Z) (fields : list field) :
  dict_get_default "position" (PDict p) p = PDict pos →
  assoc "latitude_i" pos = Some (PInt lat) →
  assoc "latitudeI" pos = None →
  assoc "longitude_i" pos = Some (PInt lon) →
  assoc "longitudeI" pos = None →
  position_fields (PDict p) = Ok fields →
  ("Location" ∈ map field_name fields ↔ lat ≠ 0 ∧ lon ≠ 0)
  ∧ ("Map" ∈ map field_name fields ↔ lat ≠ 0 ∧ lon ≠ 0).
Proof.
  intros Hpos Hlat HlatI Hlon HlonI.
  assert (Hor : ∀ n, py_or (PInt n) PNone = if Z.eqb n 0 then PNone else PInt n).
  { intros n. unfold py_or. simpl. destruct (Z.eqb n 0); reflexivity. }
  unfold position_fields, py_get_default. rewrite Hpos. cbn [bind].
  unfold py_get, py_get_default. cbn [bind]. unfold dict_get_default.
  rewrite Hlat, HlatI, Hlon, HlonI. cbv beta iota. rewrite !Hor.
  set (rest := (if is_not_None _ then _ else _) ++ (if is_not_None _ then _ else _)).
  assert (Hrest : ("Location" ∉ map field_name rest)
                  ∧ ("Map" ∉ map field_name rest)).
  { unfold rest.
    repeat match goal with
           | |- context [if ?b then _ else _] => destruct b
           end; cbn [map app field_name]; split; intros Hin;
      repeat (apply elem_of_cons in Hin as [Hin|Hin]; [discriminate|]);
      apply elem_of_nil in Hin; exact Hin. }
  clearbody rest. destruct Hrest as [HrL HrM].
  destruct (Z.eqb_spec lat 0) as [->|Hlat0];
    destruct (Z.eqb_spec lon 0) as [->|Hlon0];
    cbn [negb is_not_None andb bind].
  1-3: intros [= <-]; cbn [app]; split; split;
       [intros Hin; contradiction|intros [H1 H2]; congruence
       |intros Hin; contradiction|intros [H1 H2]; congruence].
  rewrite !py_eq_int.
  rewrite (proj2 (Z.eqb_neq lat 0) Hlat0), (proj2 (Z.eqb_neq lon 0) Hlon0).
  cbn [negb orb andb bind true_div_float].
  destruct (float_of_int_ok lat); cbn [bind]; [|discriminate].
  destruct (float_of_int_ok lon); cbn [bind]; [|discriminate].
  intros [= <-]. cbn [map app field_name].
  split; split; intros _; try (split; assumption).
  - apply list_elem_of_here.
  - apply list_elem_of_further, list_elem_of_here.
Qed.

Lemma location_needs_both_coordinates_witness :
  match position_fields
          (PDict [("latitude_i", PInt 1); ("longitude_i", PInt 123456789)]) with
  | Ok fields => "Location" ∈ map field_name fields
  | Raise _ => False
  end.
Proof.
  destruct (position_fields
              (PDict [("latitude_i", PInt 1); ("longitude_i", PInt 123456789)]))
    as [fields|e] eqn:Hfields; [|vm_compute in Hfields; discriminate].
  apply (proj1 (location_needs_both_coordinates
                  [("latitude_i", PInt 1); ("longitude_i", PInt 123456789)]
                  [("latitude_i", PInt 1); ("longitude_i", PInt 123456789)]
                  1 123456789 fields eq_refl eq_refl eq_refl eq_refl eq_refl
                  Hfields)).
  split; lia.
Defined.

(** ** A failure after the cache has been written *)

Lemma timestamp_footer_not_a_number cfg ts :
  (∀ n, ts ≠ PInt n) → (∀ b, ts ≠ PBool b) → (∀ q, ts ≠ PFloat q) →
  timestamp_footer cfg (Some ts) = Raise TypeError.
Proof.
  intros Hi Hb Hf. destruct ts as [|b|n|q| | |]; try reflexivity; exfalso.
  - exact (Hb b eq_refl).
  - exact (Hi n eq_refl).
  - exact (Hf q eq_refl).
Qed.

(** X26. What the nodeinfo branch of the formatter has written to the cache
    stays when the notification fails afterwards: with a timestamp that is
    not a number, [fromtimestamp] raises after the names have been stored,
    so nothing is sent and the cache holds the names all the same. *)
Theorem names_stored_though_nothing_sent (cfg : config) (execute_ok : bool)
    (m : message) (p u : list (string * pyval)) (k : hkey) (ts : pyval)
    (c : gmap hkey names) :
  truthy (PStr (DISCORD_TELEMETRY_WEBHOOK_URL cfg)) = true →
  msg_type m = PStr "nodeinfo" →
  msg_payload m = Some (PDict p) →
  dict_get_default "user" (PDict p) p = PDict u →
  hash_key (msg_from_id m) = Ok k →
  msg_timestamp m = Some ts →
  (∀ n, ts ≠ PInt n) → (∀ b, ts ≠ PBool b) → (∀ q, ts ≠ PFloat q) →
  let short_name := py_or (dict_get "shortName" u) (dict_get "shortname" u) in
  let long_name := py_or (dict_get "longName" u) (dict_get "longname" u) in
  truthy long_name || truthy short_name = true →
  send_telemetry_to_discord cfg execute_ok m c
  = ([], <[k := merged short_name long_name (c !! k)]> c).
Proof.
  intros Hurl Ht Hp Hu Hk Hts Hi Hb Hf short_name long_name Hname.
  pose proof (send_telemetry_to_discord_cache cfg execute_ok m p c Hurl Ht Hp)
    as Hcache.
  rewrite (nodeinfo_fields_cache m p u k c Hk Hu) in Hcache.
  fold short_name long_name in Hcache. rewrite Hname in Hcache.
  assert (Hcalls : (send_telemetry_to_discord cfg execute_ok m c).1 = []).
  { unfold send_telemetry_to_discord. rewrite Hurl, Ht, Hp, Hts.
    rewrite (timestamp_footer_not_a_number cfg ts Hi Hb Hf).
    change (default (PDict []) (Some (PDict p))) with (PDict p).
    simpl negb. cbv iota.
    destruct (title_and_color "nodeinfo") as [title color].
    destruct (if String.eqb "nodeinfo" "position" then _ else _)
      as [[fields|e] c']; reflexivity. }
  destruct (send_telemetry_to_discord cfg execute_ok m c) as [calls c2].
  simpl in *. subst. reflexivity.
Qed.

Lemma names_stored_though_nothing_sent_witness :
  (send_telemetry_to_discord example_config true bad_timestamp_message
     (node_names initial)).1 = []
  ∧ (send_telemetry_to_discord example_config true bad_timestamp_message
       (node_names initial)).2 !! KStr "!00000001"
    = Some (Names (Some (PStr "B1")) (Some (PStr "Base One"))).
Proof.
  rewrite (names_stored_though_nothing_sent example_config true
             bad_timestamp_message nodeinfo_inner nodeinfo_user
             (KStr "!00000001") (PStr "yesterday") (node_names initial)
             eq_refl eq_refl eq_refl eq_refl eq_refl eq_refl
             ltac:(discriminate) ltac:(discriminate) ltac:(discriminate)
             eq_refl).
  split; [reflexivity|]. cbn [snd]. rewrite lookup_insert_eq. reflexivity.
Defined.
